(** * Forecast: desired-state reconciliation of an Amazon Forecast forecast

    A shallow embedding of [source/shared/Forecast/forecast.py].

    The class [Forecast] talks to the Amazon Forecast service through a
    boto3 client ([self.cli]).  The service is modelled as a record of
    handlers over an arbitrary remote state; every method of the class is a
    computation in a state-and-exception monad that threads the remote
    state, the list of requests sent to the service and the log.

    Covered: [Export], and of [Forecast] the properties [arn], [status] and
    [_latest_timestamp] and the methods [history], [create] and [export].
    [__init__] only stores its arguments and hands a placeholder request to
    the validation of [ForecastClient], which is defined elsewhere;
    [export_history] is used by no other method of the class. *)

From stdpp Require Import base option list strings gmap.
From stdpp Require Import pretty.
From Stdlib Require Import ZArith Lia Sorting.Sorted.

Local Open Scope Z_scope.

(** ** Python exceptions and results *)

(** The exceptions the module can raise or let through.  botocore derives
    the class of a service error from its error code, so a [ClientError]
    carries the code and [except cli.exceptions.X] is a test on it. *)
Inductive Exception : Type :=
| ClientError (code : string) (message : string)
| ValueError (message : string)
| KeyError (key : option string)
| TypeError (message : string)
| AttributeError (message : string).

Inductive Result (A : Type) : Type :=
| Ok (a : A)
| Raise (e : Exception).
Arguments Ok {A} a.
Arguments Raise {A} e.

#[global] Instance Result_ret : MRet Result := fun A a => Ok a.
#[global] Instance Result_bind : MBind Result := fun A B f m =>
  match m with
  | Ok a => f a
  | Raise e => Raise e
  end.

(** [str(excinfo)] *)
Definition str_exception (e : Exception) : string :=
  match e with
  | ClientError _ m => m
  | ValueError m => m
  | KeyError (Some k) => "'" +:+ k +:+ "'"
  | KeyError None => "None"
  | TypeError m => m
  | AttributeError m => m
  end.

(** ** [shared.status.Status] *)

(** Modelled from the spec: the enumeration [Status] of [shared/status.py],
    imported by the module but defined elsewhere.  The source names the
    members [DOES_NOT_EXIST] and [CREATE_PENDING]; the spec lists
    does-not-exist, create-pending, active, in-progress and failed, which
    mirror the lifecycle values of the remote service. *)
Inductive Status : Type :=
| DOES_NOT_EXIST
| CREATE_PENDING
| ACTIVE
| CREATE_IN_PROGRESS
| CREATE_FAILED.

Definition Status_name (s : Status) : string :=
  match s with
  | DOES_NOT_EXIST => "DOES_NOT_EXIST"
  | CREATE_PENDING => "CREATE_PENDING"
  | ACTIVE => "ACTIVE"
  | CREATE_IN_PROGRESS => "CREATE_IN_PROGRESS"
  | CREATE_FAILED => "CREATE_FAILED"
  end.

Definition Status_members : list Status :=
  [DOES_NOT_EXIST; CREATE_PENDING; ACTIVE; CREATE_IN_PROGRESS; CREATE_FAILED].

(** [Status[name]]: the member of that name, [KeyError] when there is none
    (in particular for [None], the result of a [.get] on a missing key). *)
Definition Status_getitem (name : option string) : Result Status :=
  match name with
  | None => Raise (KeyError None)
  | Some n =>
      match filter (λ s, Status_name s = n) Status_members with
      | s :: _ => Ok s
      | [] => Raise (KeyError (Some n))
      end
  end.

(** [str(status)] of an enumeration member *)
Definition str_Status (s : Status) : string := "Status." +:+ Status_name s.

(** ** Data exchanged with the service *)

(** Timestamps are [datetime] values; only their order matters. *)
Definition datetime : Type := Z.

(** Values of the pass-through keyword arguments [**forecast_config]. *)
Inductive Value : Type :=
| VStr (s : string)
| VInt (n : Z)
| VList (l : list string).

(** A response is a dict read with [.get] (absent key: [None]) or with
    [itemgetter] (absent key: [KeyError]); each key the module reads is an
    optional field. *)
Module ForecastSummary.
Record t : Type := mk {
  ForecastArn : option string;
  ForecastName : option string;
  LastModificationTime : option datetime
}.
End ForecastSummary.

Module ListForecastsPage.
Record t : Type := mk { Forecasts : option (list ForecastSummary.t) }.
End ListForecastsPage.

Module DescribeForecastResponse.
Record t : Type := mk {
  PredictorArn : option string;
  CreationTime : option datetime;
  Status : option string
}.
End DescribeForecastResponse.

Module DescribeForecastExportJobResponse.
Record t : Type := mk { Status : option string }.
End DescribeForecastExportJobResponse.

Module Filter.
Record t : Type := mk {
  Key : string;
  Condition : string;
  Value : option string
}.
End Filter.

Module CreateForecastRequest.
Record t : Type := mk {
  ForecastName : string;
  PredictorArn : option string;
  Tags : list (string * string);
  forecast_config : gmap string Value
}.
End CreateForecastRequest.

Module S3Config.
Record t : Type := mk {
  Path : string;
  RoleArn : option string
}.
End S3Config.

Module CreateForecastExportJobRequest.
Record t : Type := mk {
  ForecastArn : option string;
  ForecastExportJobName : string;
  Destination : S3Config.t
}.
End CreateForecastExportJobRequest.

(** ** Collaborators *)

(** [Predictor], [DatasetGroup] and [DatasetFile] are defined in other
    modules; the class reads the attributes below and nothing else. *)
Module Predictor.
Record t : Type := mk { arn : option string }.
End Predictor.

Module Dataset.
Record t : Type := mk { LastModificationTime : option datetime }.
End Dataset.

Module DatasetGroup.
Record t : Type := mk {
  arn : option string;
  dataset_group_name : string;
  latest_timestamp : string;
  datasets : list Dataset.t
}.
End DatasetGroup.

Module DatasetFile.
Record t : Type := mk { bucket : string }.
End DatasetFile.

(** ** The remote service *)

(** The requests the module sends, as recorded in the trace. *)
Inductive Call : Type :=
| ListForecasts (filters : list Filter.t)
| DescribeForecast (ForecastArn : option string)
| CreateForecast (request : CreateForecastRequest.t)
| DescribeForecastExportJob (ForecastExportJobArn : string)
| CreateForecastExportJob (request : CreateForecastExportJobRequest.t).

(** The boto3 client: each operation answers from the remote state and may
    change it.  A paginated listing is drained by the caller page after
    page with nothing in between, so it is one operation that answers all
    its pages or the error that interrupted it. *)
Record Client (R : Type) : Type := {
  list_forecasts :
    list Filter.t → R → Result (list ListForecastsPage.t) * R;
  describe_forecast :
    option string → R → Result DescribeForecastResponse.t * R;
  create_forecast :
    CreateForecastRequest.t → R → Result unit * R;
  describe_forecast_export_job :
    string → R → Result DescribeForecastExportJobResponse.t * R;
  create_forecast_export_job :
    CreateForecastExportJobRequest.t → R → Result unit * R
}.
Arguments list_forecasts {R} _ _ _.
Arguments describe_forecast {R} _ _ _.
Arguments create_forecast {R} _ _ _.
Arguments describe_forecast_export_job {R} _ _ _.
Arguments create_forecast_export_job {R} _ _ _.

Inductive Level : Type := DEBUG | INFO.

(** What a method call can read and change: the remote state, the trace of
    requests sent so far and the log. *)
Record World (R : Type) : Type := mkWorld {
  remote : R;
  calls : list Call;
  log : list (Level * string)
}.
Arguments mkWorld {R} _ _ _.
Arguments remote {R} _.
Arguments calls {R} _.
Arguments log {R} _.

(** ** The monad of method bodies *)

Definition M (R A : Type) : Type := World R → Result A * World R.

#[global] Instance M_ret {R} : MRet (M R) := λ A a w, (Ok a, w).
#[global] Instance M_bind {R} : MBind (M R) := λ A B f m w,
  match m w with
  | (Ok a, w') => f a w'
  | (Raise e, w') => (Raise e, w')
  end.

Definition raise {R A} (e : Exception) : M R A := λ w, (Raise e, w).

(** A pure computation that may raise. *)
Definition lift {R A} (r : Result A) : M R A := λ w, (r, w).

(** Send a request: record it and let the service answer. *)
Definition invoke {R A} (c : Call) (h : R → Result A * R) : M R A := λ w,
  let '(a, r') := h (remote w) in
  (a, mkWorld r' (calls w ++ [c]) (log w)).

Definition logger {R} (lvl : Level) (msg : string) : M R unit := λ w,
  (Ok (), mkWorld (remote w) (calls w) (log w ++ [(lvl, msg)])).

(** [try: body except ...: handler]: [handler e] is [Some k] when a clause
    matches [e]; an exception raised by [k] is not caught again. *)
Definition try_except {R A} (body : M R A)
    (handler : Exception → option (M R A)) : M R A := λ w,
  match body w with
  | (Ok a, w') => (Ok a, w')
  | (Raise e, w') =>
      match handler e with
      | Some k => k w'
      | None => (Raise e, w')
      end
  end.

(** [isinstance(e, cli.exceptions.<code>)] *)
Definition is_client_error (code : string) (e : Exception) : bool :=
  match e with
  | ClientError c _ => bool_decide (c = code)
  | _ => false
  end.

(** ** [sorted(l, key=..., reverse=True)] *)

(** Python's sort is stable, also with [reverse=True]: elements with equal
    keys keep their order.  [insert_desc] puts [x], which comes before the
    elements of [l] in the input, in front of the first element whose key
    is not greater. *)
Fixpoint insert_desc {A} (key : A → Z) (x : A) (l : list A) : list A :=
  match l with
  | [] => [x]
  | y :: l' =>
      if decide (key x < key y) then y :: insert_desc key x l' else x :: l
  end.

Definition sort_desc {A} (key : A → Z) (l : list A) : list A :=
  foldr (insert_desc key) [] l.

(** The keys are computed for every element before any comparison, so a
    failing key function raises whatever the order. *)
Definition sorted_reverse {A} (key : A → Result Z) (l : list A)
    : Result (list A) :=
  keyed ← mapM (λ x, k ← key x; mret (k, x)) l;
  mret (snd <$> sort_desc fst keyed).

(** [itemgetter(name)] on a dict whose key [name] holds [field] *)
Definition itemgetter {A} (name : string) (field : option A) : Result A :=
  match field with
  | Some v => Ok v
  | None => Raise (KeyError (Some name))
  end.

(** The type of a [.get] result, as the interpreter names it in a
    [TypeError]: a timestamp of the service is a [datetime.datetime]. *)
Definition operand_type (a : option datetime) : string :=
  match a with
  | Some _ => "datetime.datetime"
  | None => "NoneType"
  end.

(** [a > b] on two [.get] results: [None] is not ordered, and the
    [TypeError] names the types of the two operands in their order. *)
Definition py_gt (a b : option datetime) : Result bool :=
  match a, b with
  | Some x, Some y => Ok (bool_decide (x > y))
  | _, _ =>
      Raise (TypeError ("'>' not supported between instances of '"
                        +:+ operand_type a +:+ "' and '"
                        +:+ operand_type b +:+ "'"))
  end.

(** [s.replace(old, new)] for a non-empty [old]: every occurrence, found
    left to right without overlap, is replaced.  [skip] counts the
    characters of a replaced occurrence still to be dropped. *)
Fixpoint str_replace_from (old new : string) (skip : nat) (s : string)
    : string :=
  match s with
  | EmptyString => EmptyString
  | String c s' =>
      match skip with
      | S k => str_replace_from old new k s'
      | O =>
          if String.prefix old s
          then new +:+ str_replace_from old new (String.length old - 1) s'
          else String c (str_replace_from old new 0 s')
      end
  end.

Definition str_replace (old new s : string) : string :=
  str_replace_from old new 0 s.

(** [f(a=..., **kwargs)]: a key of [kwargs] that repeats an explicit
    keyword is a [TypeError], raised before [f] is entered.  The
    interpreter's message names the callee, which is an attribute of the
    client object, and the first repeated key in the order of the dict;
    neither is part of this model, so the text below keeps the fixed part
    of the message and a repeated keyword, and no statement depends on
    it. *)
Definition keyword_arguments (explicit : list string)
    (kwargs : gmap string Value) : Result (gmap string Value) :=
  if decide (Forall (λ k, kwargs !! k = None) explicit)
  then Ok kwargs
  else Raise (TypeError
                ("got multiple values for keyword argument '"
                 +:+ default "" (head (filter (λ k, is_Some (kwargs !! k))
                                         explicit))
                 +:+ "'")).

(** ** [class Export] *)

(** The class [Export]; [Export] is a reserved word after [Module], hence
    the longer name. *)
Module ForecastExport.
Record t : Type := mk { status : Status }.
(** [Export()]: the class attribute [status = Status.DOES_NOT_EXIST] *)
Definition new : t := mk DOES_NOT_EXIST.
End ForecastExport.

(** ** [class Forecast] *)

(** An instance after [__init__]: the two collaborators, the pass-through
    configuration and [tags], an attribute inherited from [ForecastClient]. *)
Record Forecast : Type := mkForecast {
  _predictor : Predictor.t;
  _dataset_group : DatasetGroup.t;
  _forecast_config : gmap string Value;
  tags : list (string * string)
}.

Section Forecast.
Context {R : Type}.
(** [self.cli] and [os.environ] *)
Variable cli : Client R.
Variable environ : gmap string string.

Definition history_filters (self : Forecast) : list Filter.t :=
  [Filter.mk "DatasetGroupArn" "IS" (DatasetGroup.arn (_dataset_group self))].

(** The loop [for page in iterator: past_forecasts.extend(...)] *)
Definition extend_pages (pages : list ListForecastsPage.t)
    : list ForecastSummary.t :=
  foldl (λ past page, past ++ default [] (ListForecastsPage.Forecasts page))
    [] pages.

Definition sort_history (past_forecasts : list ForecastSummary.t)
    : Result (list ForecastSummary.t) :=
  sorted_reverse
    (λ f, itemgetter "LastModificationTime"
            (ForecastSummary.LastModificationTime f))
    past_forecasts.

Definition history (self : Forecast) : M R (list ForecastSummary.t) :=
  let filters := history_filters self in
  pages ← invoke (ListForecasts filters) (list_forecasts cli filters);
  lift (sort_history (extend_pages pages)).

Definition arn (self : Forecast) : M R (option string) :=
  past_forecasts ← history self;
  match past_forecasts with
  | [] => mret None
  | latest :: _ => mret (ForecastSummary.ForecastArn latest)
  end.

(** The loop over [self._dataset_group.datasets] of [status]: [true] when
    it returns from inside, at the first dataset modified after
    [creation]; the comparison of a missing time raises. *)
Fixpoint datasets_changed (datasets : list Dataset.t)
    (creation : option datetime) : Result bool :=
  match datasets with
  | [] => Ok false
  | dataset :: rest =>
      newer ← py_gt (Dataset.LastModificationTime dataset) creation;
      if (newer : bool) then Ok true else datasets_changed rest creation
  end.

Definition status (self : Forecast) : M R Status :=
  past_forecasts ← history self;
  match past_forecasts with
  | [] =>
      logger DEBUG "No past forecasts found";;
      mret DOES_NOT_EXIST
  | latest :: _ =>
      past_status ←
        invoke (DescribeForecast (ForecastSummary.ForecastArn latest))
          (describe_forecast cli (ForecastSummary.ForecastArn latest));
      if decide (DescribeForecastResponse.PredictorArn past_status
                 ≠ Predictor.arn (_predictor self))
      then
        logger DEBUG "Most recent forecast was generated with a different predictor, a new forecast should be created";;
        mret DOES_NOT_EXIST
      else
        changed ←
          lift (datasets_changed (DatasetGroup.datasets (_dataset_group self))
                  (DescribeForecastResponse.CreationTime past_status));
        if (changed : bool)
        then
          logger DEBUG "Datasets have changed since last forecast generation, a new forecast should be created ";;
          mret DOES_NOT_EXIST
        else
          lift (Status_getitem (DescribeForecastResponse.Status past_status))
  end.

Definition _latest_timestamp (self : Forecast) : string :=
  DatasetGroup.latest_timestamp (_dataset_group self).

Definition forecast_name (self : Forecast) : string :=
  "forecast_" +:+ DatasetGroup.dataset_group_name (_dataset_group self)
    +:+ "_" +:+ _latest_timestamp self.

Definition create_forecast_request (self : Forecast)
    : Result CreateForecastRequest.t :=
  config ← keyword_arguments ["ForecastName"; "PredictorArn"; "Tags"]
             (_forecast_config self);
  mret (CreateForecastRequest.mk (forecast_name self)
          (Predictor.arn (_predictor self)) (tags self) config).

Definition create (self : Forecast) : M R unit :=
  let forecast_name := forecast_name self in
  try_except
    (logger INFO ("Creating forecast " +:+ forecast_name);;
     request ← lift (create_forecast_request self);
     invoke (CreateForecast request) (create_forecast cli request))
    (λ excinfo,
       if is_client_error "ResourceAlreadyExistsException" excinfo
       then Some (logger DEBUG
                    ("Forecast " +:+ forecast_name +:+ " is already creating"))
       else if is_client_error "ResourceInUseException" excinfo
       then Some (logger DEBUG
                    ("Forecast " +:+ forecast_name +:+ " is updating: "
                     +:+ str_exception excinfo))
       else None).

Definition export_name (self : Forecast) : string :=
  "export_" +:+ DatasetGroup.dataset_group_name (_dataset_group self)
    +:+ "_" +:+ _latest_timestamp self.

(** [self.arn.replace(":forecast/", ":forecast-export-job/") + f"/{export_name}"];
    [None] has no [replace]. *)
Definition export_job_arn (self : Forecast) (forecast_arn : option string)
    : Result string :=
  match forecast_arn with
  | Some a =>
      Ok (str_replace ":forecast/" ":forecast-export-job/" a
          +:+ "/" +:+ export_name self)
  | None =>
      Raise (AttributeError "'NoneType' object has no attribute 'replace'")
  end.

Definition export_request (self : Forecast) (dataset_file : DatasetFile.t)
    (forecast_arn : option string) : CreateForecastExportJobRequest.t :=
  CreateForecastExportJobRequest.mk forecast_arn (export_name self)
    (S3Config.mk
       ("s3://" +:+ DatasetFile.bucket dataset_file +:+ "/exports/"
        +:+ export_name self)
       (environ !! "FORECAST_ROLE")).

(** [not x] for a string or [None] *)
Definition not_str (x : option string) : bool :=
  match x with
  | None => true
  | Some s => bool_decide (s = "")
  end.

Definition export (self : Forecast) (dataset_file : DatasetFile.t)
    : M R ForecastExport.t :=
  forecast_arn ← arn self;
  if not_str forecast_arn
  then raise (ValueError "Forecast does not yet exist - cannot perform export.")
  else
    let export_name := export_name self in
    let past_export := ForecastExport.new in
    past_export ←
      try_except
        (forecast_arn ← arn self;
         job_arn ← lift (export_job_arn self forecast_arn);
         past_status ←
           invoke (DescribeForecastExportJob job_arn)
             (describe_forecast_export_job cli job_arn);
         export_status ←
           lift (Status_getitem
                   (DescribeForecastExportJobResponse.Status past_status));
         mret (ForecastExport.mk export_status))
        (λ excinfo,
           if is_client_error "ResourceInUseException" excinfo
           then Some
             (logger DEBUG
                ("Forecast export " +:+ export_name +:+ " is updating: "
                 +:+ str_exception excinfo);;
              mret past_export)
           else if is_client_error "ResourceNotFoundException" excinfo
           then Some
             (logger INFO ("Creating forecast export " +:+ export_name);;
              forecast_arn ← arn self;
              let request := export_request self dataset_file forecast_arn in
              invoke (CreateForecastExportJob request)
                (create_forecast_export_job cli request);;
              mret (ForecastExport.mk CREATE_PENDING))
           else None);
    logger DEBUG
      ("Export status for " +:+ export_name +:+ " is "
       +:+ str_Status (ForecastExport.status past_export));;
    mret past_export.

End Forecast.

(** ** Notions used in the statements *)

(** [desc key a b]: [a] may come before [b] in a list descending by [key]. *)
Definition desc {A} (key : A → Z) (a b : A) : Prop := key b ≤ key a.

(** The forecasts of all pages, in the order of the listing. *)
Definition listed (pages : list ListForecastsPage.t) : list ForecastSummary.t :=
  concat ((λ page, default [] (ListForecastsPage.Forecasts page)) <$> pages).

(** [not_older a b]: both carry a last-modification time and [a]'s is not
    before [b]'s. *)
Definition not_older (a b : ForecastSummary.t) : Prop :=
  ∃ ta tb,
    ForecastSummary.LastModificationTime a = Some ta
    ∧ ForecastSummary.LastModificationTime b = Some tb
    ∧ tb ≤ ta.

(** The sort key of a forecast that carries a last-modification time. *)
Definition modified (f : ForecastSummary.t) : Z :=
  default 0 (ForecastSummary.LastModificationTime f).

(** The two service errors [create] takes for "nothing to do". *)
Definition absorbed (e : Exception) : Prop :=
  ∃ message,
    e = ClientError "ResourceAlreadyExistsException" message
    ∨ e = ClientError "ResourceInUseException" message.

Definition benign (answer : Result unit) : Prop :=
  match answer with
  | Ok _ => True
  | Raise e => absorbed e
  end.

(** The log records of one call of [create] whose request the service
    answers with [answer]: the record of the attempt, then the record of
    the [except] clause that absorbs the answer, if one does. *)
Definition create_log (self : Forecast) (answer : Result unit)
    : list (Level * string) :=
  (INFO, "Creating forecast " +:+ forecast_name self)
  :: match answer with
     | Ok _ => []
     | Raise e =>
         if is_client_error "ResourceAlreadyExistsException" e
         then [(DEBUG, "Forecast " +:+ forecast_name self
                       +:+ " is already creating")]
         else if is_client_error "ResourceInUseException" e
         then [(DEBUG, "Forecast " +:+ forecast_name self
                       +:+ " is updating: " +:+ str_exception e)]
         else []
     end.

(** The create requests for export jobs, to count them in a trace. *)
Definition is_create_export_job (c : Call) : bool :=
  match c with
  | CreateForecastExportJob _ => true
  | _ => false
  end.

(** What [self.arn] evaluates to when the service is in state [r], and the
    state the listing leaves the service in. *)
Definition arn_from {R} (cli : Client R) (self : Forecast) (r : R)
    : Result (option string) * R :=
  let '(a, w) := arn cli self (mkWorld r [] []) in (a, remote w).

(** The value [status] computes from the description of the latest
    forecast (lines 107-123 without the logging); [status_run] below
    relates it to [status]. *)
Definition status_of (self : Forecast)
    (past_status : DescribeForecastResponse.t) : Result Status :=
  if decide (DescribeForecastResponse.PredictorArn past_status
             ≠ Predictor.arn (_predictor self))
  then Ok DOES_NOT_EXIST
  else
    changed ← datasets_changed (DatasetGroup.datasets (_dataset_group self))
                (DescribeForecastResponse.CreationTime past_status);
    if (changed : bool) then Ok DOES_NOT_EXIST
    else Status_getitem (DescribeForecastResponse.Status past_status).

(** ** An in-memory service *)

(** A small stand-in for the service, for running the methods on concrete
    inputs: it keeps the forecasts and export jobs created so far and a
    clock, and can be told to answer that an export job is in use. *)
Module Fake.
Record forecast : Type := mk_forecast {
  f_arn : string;
  f_name : string;
  f_predictor : option string;
  f_created : datetime;
  f_modified : datetime;
  f_status : string
}.

Record state : Type := mk_state {
  forecasts : list forecast;
  export_jobs : list string;
  clock : datetime;
  export_in_use : bool
}.

Definition summary (f : forecast) : ForecastSummary.t :=
  ForecastSummary.mk (Some (f_arn f)) (Some (f_name f)) (Some (f_modified f)).

Definition description (f : forecast) : DescribeForecastResponse.t :=
  DescribeForecastResponse.mk (f_predictor f) (Some (f_created f))
    (Some (f_status f)).

Definition not_found {A} : Result A :=
  Raise (ClientError "ResourceNotFoundException" "resource not found").

Definition client : Client state := {|
  list_forecasts _ st :=
    (Ok [ListForecastsPage.mk (Some (summary <$> forecasts st))], st);
  describe_forecast a st :=
    (match filter (λ f, Some (f_arn f) = a) (forecasts st) with
     | f :: _ => Ok (description f)
     | [] => not_found
     end, st);
  create_forecast request st :=
    let name := CreateForecastRequest.ForecastName request in
    match filter (λ f, f_name f = name) (forecasts st) with
    | _ :: _ =>
        (Raise (ClientError "ResourceAlreadyExistsException"
                  "forecast already exists"), st)
    | [] =>
        (Ok (),
         mk_state
           (mk_forecast
              ("arn:aws:forecast:us-east-1:111111111111:forecast/" +:+ name)
              name (CreateForecastRequest.PredictorArn request)
              (clock st) (clock st) "CREATE_PENDING" :: forecasts st)
           (export_jobs st) (clock st + 1) (export_in_use st))
    end;
  describe_forecast_export_job a st :=
    (if export_in_use st
     then Raise (ClientError "ResourceInUseException" "export job in use")
     else if decide (a ∈ export_jobs st)
     then Ok (DescribeForecastExportJobResponse.mk (Some "ACTIVE"))
     else not_found, st);
  create_forecast_export_job request st :=
    match CreateForecastExportJobRequest.ForecastArn request with
    | Some a =>
        (Ok (),
         mk_state (forecasts st)
           ((str_replace ":forecast/" ":forecast-export-job/" a +:+ "/"
             +:+ CreateForecastExportJobRequest.ForecastExportJobName request)
            :: export_jobs st)
           (clock st + 1) (export_in_use st))
    | None => (Raise (ValueError "Parameter validation failed"), st)
    end
|}.

Definition start (st : state) : World state := mkWorld st [] [].

(** The running example: dataset group "sales" whose data end at
    2021-05-01T00:00:00Z, predictor B. *)
Definition sales (datasets : list Dataset.t) : Forecast :=
  mkForecast
    (Predictor.mk (Some "arn:aws:forecast:us-east-1:111111111111:predictor/B"))
    (DatasetGroup.mk
       (Some "arn:aws:forecast:us-east-1:111111111111:dataset-group/sales")
       "sales" "2021-05-01T00:00:00Z" datasets)
    ∅ [("SolutionId", "SOL0123")].

Definition file : DatasetFile.t := DatasetFile.mk "data-bucket".

Definition environ : gmap string string :=
  {[ "FORECAST_ROLE" := "arn:aws:iam::111111111111:role/forecast" ]}.

(** A forecast named as [create] names it, made at time 10 with the
    given predictor and status. *)
Definition made_with (predictor status : string) : forecast :=
  mk_forecast
    "arn:aws:forecast:us-east-1:111111111111:forecast/forecast_sales_2021-05-01T00:00:00Z"
    "forecast_sales_2021-05-01T00:00:00Z" (Some predictor) 10 10 status.

(** The same dataset group and timestamp, another predictor and a
    pass-through option. *)
Definition sales_retrained : Forecast :=
  mkForecast
    (Predictor.mk (Some "arn:aws:forecast:us-east-1:111111111111:predictor/C"))
    (DatasetGroup.mk
       (Some "arn:aws:forecast:us-east-1:111111111111:dataset-group/sales")
       "sales" "2021-05-01T00:00:00Z" [])
    {[ "ForecastTypes" := VList ["0.10"; "0.50"; "0.90"] ]}
    [("SolutionId", "SOL0123")].

Definition empty : state := mk_state [] [] 0 false.

(** Two forecasts, listed oldest first. *)
Definition two_forecasts : state :=
  mk_state
    [mk_forecast "arn:aws:forecast:us-east-1:111111111111:forecast/first"
       "first" (Some "arn:aws:forecast:us-east-1:111111111111:predictor/A")
       10 10 "ACTIVE";
     mk_forecast "arn:aws:forecast:us-east-1:111111111111:forecast/second"
       "second" (Some "arn:aws:forecast:us-east-1:111111111111:predictor/B")
       30 30 "ACTIVE"]
    [] 40 false.

Definition holding (f : forecast) (in_use : bool) : state :=
  mk_state [f] [] 20 in_use.
End Fake.

(** ** [Forecast.__init__]: the parameters handed to the validation *)

(** [s * n] on a string *)
Fixpoint str_repeat (s : string) (n : nat) : string :=
  match n with
  | O => ""
  | S n' => s +:+ str_repeat s n'
  end.

(** [self._forecast_params]: a dict display in which the entries of
    [**self._forecast_config] come last and so replace the two
    placeholders. *)
Definition _forecast_params (self : Forecast) : gmap string Value :=
  _forecast_config self
  ∪ {[ "ForecastName" := VStr "PLACEHOLDER";
       "PredictorArn" :=
         VStr ("arn:aws:forecast:us-east-1:" +:+ str_repeat "1" 12
               +:+ ":predictor/PredictorName") ]}.

(** ** [Forecast.export_history] *)

Module ExportJobSummary.
Record t : Type := mk {
  ForecastExportJobArn : option string;
  CreationTime : option datetime
}.
End ExportJobSummary.

Module ListForecastExportJobsPage.
Record t : Type := mk { ForecastExportJobs : option (list ExportJobSummary.t) }.
End ListForecastExportJobsPage.

(** [export_history] is the one method that lists export jobs: its trace
    holds the requests of the other methods and this listing. *)
Inductive Request : Type :=
| ForecastRequest (c : Call)
| ListForecastExportJobs (filters : list Filter.t).

Record Session (R : Type) : Type := mkSession {
  s_remote : R;
  s_requests : list Request;
  s_log : list (Level * string)
}.
Arguments mkSession {R} _ _ _.
Arguments s_remote {R} _.
Arguments s_requests {R} _.
Arguments s_log {R} _.

(** A method of the class run inside a session: its requests and log
    records are appended to those of the session. *)
Definition in_session {R A} (m : M R A) (s : Session R)
    : Result A * Session R :=
  let '(a, w) := m (mkWorld (s_remote s) [] []) in
  (a, mkSession (remote w) (s_requests s ++ (ForecastRequest <$> calls w))
        (s_log s ++ log w)).

Definition export_history_filters (forecast_arn : option string)
    (status : string) : list Filter.t :=
  [Filter.mk "ForecastArn" "IS" forecast_arn;
   Filter.mk "Status" "IS" (Some status)].

(** The loop [for page in iterator: past_exports.extend(...)] *)
Definition extend_export_pages (pages : list ListForecastExportJobsPage.t)
    : list ExportJobSummary.t :=
  foldl (λ past page,
           past ++ default [] (ListForecastExportJobsPage.ForecastExportJobs page))
    [] pages.

Definition sort_export_history (past_exports : list ExportJobSummary.t)
    : Result (list ExportJobSummary.t) :=
  sorted_reverse
    (λ j, itemgetter "CreationTime" (ExportJobSummary.CreationTime j))
    past_exports.

Section export_history.
Context {R : Type}.
Variable cli : Client R.
(** The paginator of [list_forecast_export_jobs], drained like that of
    [list_forecasts], and [str] of a list of job summaries, which the log
    record of the method prints. *)
Variable list_forecast_export_jobs :
  list Filter.t → R → Result (list ListForecastExportJobsPage.t) * R.
Variable str_exports : list ExportJobSummary.t → string.

(** [export_history(status)]; the caller passes ["ACTIVE"] for the default. *)
Definition export_history (self : Forecast) (status : string) (s : Session R)
    : Result (list ExportJobSummary.t) * Session R :=
  match in_session (arn cli self) s with
  | (Raise e, s1) => (Raise e, s1)
  | (Ok forecast_arn, s1) =>
      let filters := export_history_filters forecast_arn status in
      let '(answer, r) := list_forecast_export_jobs filters (s_remote s1) in
      let s2 :=
        mkSession r (s_requests s1 ++ [ListForecastExportJobs filters])
          (s_log s1) in
      match pages ← answer; sort_export_history (extend_export_pages pages) with
      | Raise e => (Raise e, s2)
      | Ok past_exports =>
          (Ok past_exports,
           mkSession (s_remote s2) (s_requests s2)
             (s_log s2 ++
              [(DEBUG,
                "there are {" +:+ pretty (length past_exports)
                +:+ "} exports: " +:+ str_exports past_exports)]))
      end
  end.
End export_history.

(** ** Further notions used in the statements *)

(** Requests that only read the remote state. *)
Definition is_read_request (c : Call) : bool :=
  match c with
  | ListForecasts _ | DescribeForecast _ | DescribeForecastExportJob _ => true
  | CreateForecast _ | CreateForecastExportJob _ => false
  end.

Fixpoint has_slash (s : string) : bool :=
  match s with
  | EmptyString => false
  | String c s' => bool_decide (String c "" = "/") || has_slash s'
  end.

(** The export jobs of all pages, in the order of the listing. *)
Definition listed_jobs (pages : list ListForecastExportJobsPage.t)
    : list ExportJobSummary.t :=
  concat ((λ page, default [] (ListForecastExportJobsPage.ForecastExportJobs page))
            <$> pages).

Definition created (j : ExportJobSummary.t) : Z :=
  default 0 (ExportJobSummary.CreationTime j).

(** [created_not_before a b]: both carry a creation time and [a]'s is not
    before [b]'s. *)
Definition created_not_before (a b : ExportJobSummary.t) : Prop :=
  ∃ ta tb,
    ExportJobSummary.CreationTime a = Some ta
    ∧ ExportJobSummary.CreationTime b = Some tb
    ∧ tb ≤ ta.

(** Stand-ins for running [export_history]: a service with two export
    jobs, listed oldest first, and a printer of job lists. *)
Module FakeExports.
Definition jobs : list ExportJobSummary.t :=
  [ExportJobSummary.mk (Some "arn:aws:forecast:us-east-1:111111111111:forecast-export-job/f/e1") (Some 5);
   ExportJobSummary.mk (Some "arn:aws:forecast:us-east-1:111111111111:forecast-export-job/f/e2") (Some 7)].

Definition list_forecast_export_jobs (filters : list Filter.t)
    (st : Fake.state)
    : Result (list ListForecastExportJobsPage.t) * Fake.state :=
  (Ok [ListForecastExportJobsPage.mk (Some jobs)], st).

(** A job without creation time among the listed ones. *)
Definition list_malformed (filters : list Filter.t) (st : Fake.state)
    : Result (list ListForecastExportJobsPage.t) * Fake.state :=
  (Ok [ListForecastExportJobsPage.mk
         (Some (jobs ++ [ExportJobSummary.mk None None]))], st).

Definition str_exports (l : list ExportJobSummary.t) : string :=
  "[" +:+ pretty (length l) +:+ " job summaries]".

Definition start (st : Fake.state) : Session Fake.state := mkSession st [] [].
End FakeExports.

(** Variants of the in-memory service with one operation replaced, for
    the answers the plain one never gives. *)
Module Variant.
Definition with_listing (answer : Result (list ListForecastsPage.t))
    : Client Fake.state := {|
  list_forecasts _ st := (answer, st);
  describe_forecast := describe_forecast Fake.client;
  create_forecast := create_forecast Fake.client;
  describe_forecast_export_job := describe_forecast_export_job Fake.client;
  create_forecast_export_job := create_forecast_export_job Fake.client
|}.

Definition with_description (answer : Result DescribeForecastResponse.t)
    : Client Fake.state := {|
  list_forecasts := list_forecasts Fake.client;
  describe_forecast _ st := (answer, st);
  create_forecast := create_forecast Fake.client;
  describe_forecast_export_job := describe_forecast_export_job Fake.client;
  create_forecast_export_job := create_forecast_export_job Fake.client
|}.

Definition with_export_job
    (answer : Result DescribeForecastExportJobResponse.t)
    : Client Fake.state := {|
  list_forecasts := list_forecasts Fake.client;
  describe_forecast := describe_forecast Fake.client;
  create_forecast := create_forecast Fake.client;
  describe_forecast_export_job _ st := (answer, st);
  create_forecast_export_job := create_forecast_export_job Fake.client
|}.

(** The forecasts are deleted right after they have been listed once. *)
Definition vanishing : Client Fake.state := {|
  list_forecasts filters st :=
    (fst (list_forecasts Fake.client filters st),
     Fake.mk_state [] (Fake.export_jobs st) (Fake.clock st)
       (Fake.export_in_use st));
  describe_forecast := describe_forecast Fake.client;
  create_forecast := create_forecast Fake.client;
  describe_forecast_export_job := describe_forecast_export_job Fake.client;
  create_forecast_export_job := create_forecast_export_job Fake.client
|}.

Definition throttled {A} : Result A :=
  Raise (ClientError "ThrottlingException" "rate exceeded").

(** Two pages; the forecasts [b] and [c] share a last-modification time. *)
Definition pages_with_tie : list ListForecastsPage.t :=
  [ListForecastsPage.mk
     (Some [ForecastSummary.mk (Some "arn:a") (Some "a") (Some 10);
            ForecastSummary.mk (Some "arn:b") (Some "b") (Some 30)]);
   ListForecastsPage.mk None;
   ListForecastsPage.mk
     (Some [ForecastSummary.mk (Some "arn:c") (Some "c") (Some 30)])].

(** A page with a forecast that lacks the sort key. *)
Definition pages_without_time : list ListForecastsPage.t :=
  [ListForecastsPage.mk
     (Some [ForecastSummary.mk (Some "arn:a") (Some "a") (Some 10);
            ForecastSummary.mk (Some "arn:b") (Some "b") None])].

(** A forecast whose pass-through options name the forecast. *)
Definition sales_named : Forecast :=
  mkForecast
    (Predictor.mk (Some "arn:aws:forecast:us-east-1:111111111111:predictor/B"))
    (DatasetGroup.mk
       (Some "arn:aws:forecast:us-east-1:111111111111:dataset-group/sales")
       "sales" "2021-05-01T00:00:00Z" [])
    {[ "ForecastName" := VStr "my_forecast" ]}
    [("SolutionId", "SOL0123")].

Definition active : Fake.state :=
  Fake.holding
    (Fake.made_with "arn:aws:forecast:us-east-1:111111111111:predictor/B"
       "ACTIVE")
    false.
End Variant.

(** * Properties *)

(** ** The stable descending sort *)

Section sort_desc.
Context {A : Type} (key : A → Z).

Lemma insert_desc_perm x l : insert_desc key x l ≡ₚ x :: l.
Proof.
  induction l as [|y l IH]; simpl; [done|].
  case_decide; [|done].
  rewrite IH. apply Permutation_swap.
Qed.

Lemma sort_desc_perm l : sort_desc key l ≡ₚ l.
Proof.
  induction l as [|x l IH]; simpl; [done|].
  rewrite insert_desc_perm. by f_equiv.
Qed.

Lemma insert_desc_sorted x l :
  StronglySorted (desc key) l → StronglySorted (desc key) (insert_desc key x l).
Proof.
  induction 1 as [|y l Hl IH Hy]; simpl.
  - repeat constructor.
  - case_decide as Hlt.
    + constructor; [done|].
      rewrite insert_desc_perm. constructor; [unfold desc; lia | done].
    + constructor; [by constructor|].
      constructor; [unfold desc; lia|].
      eapply Forall_impl; [exact Hy|]. unfold desc. intros z Hz. lia.
Qed.

Lemma sort_desc_sorted l : StronglySorted (desc key) (sort_desc key l).
Proof.
  induction l as [|x l IH]; simpl; [constructor|].
  by apply insert_desc_sorted.
Qed.

(** Stability: the elements of any one key keep their input order. *)
Lemma insert_desc_stable k x l :
  filter (λ a, key a = k) (insert_desc key x l)
  = filter (λ a, key a = k) (x :: l).
Proof.
  induction l as [|y l IH]; simpl; [done|].
  case_decide as Hlt; [|done].
  rewrite !filter_cons in *.
  repeat case_decide; simplify_eq; try lia; by rewrite IH.
Qed.

Lemma sort_desc_stable k l :
  filter (λ a, key a = k) (sort_desc key l) = filter (λ a, key a = k) l.
Proof.
  induction l as [|x l IH]; simpl; [done|].
  rewrite insert_desc_stable, !filter_cons, IH. done.
Qed.

Lemma sort_desc_decorated l :
  sort_desc fst ((λ x, (key x, x)) <$> l)
  = (λ x, (key x, x)) <$> sort_desc key l.
Proof.
  unfold sort_desc.
  induction l as [|x l IH]; csimpl; [done|].
  rewrite IH. generalize (foldr (insert_desc key) [] l) as s. clear.
  induction s as [|y s IH]; csimpl; [done|].
  case_decide; csimpl; [by rewrite IH | done].
Qed.
End sort_desc.

(** [sorted(..., key=itemgetter(name), reverse=True)] when every element
    has a key: the stable descending sort on these keys. *)
Lemma sorted_reverse_total {A} (key : A → Result Z) (kz : A → Z) l :
  Forall (λ x, key x = Ok (kz x)) l →
  sorted_reverse key l = Ok (sort_desc kz l).
Proof.
  intros Hall. unfold sorted_reverse.
  assert (mapM (λ x, k ← key x; mret (k, x)) l
          = Ok ((λ x, (kz x, x)) <$> l)) as ->.
  { induction Hall as [|x l Hx _ IH]; simpl; [done|].
    rewrite Hx. simpl. rewrite IH. done. }
  simpl. unfold mret, Result_ret. f_equal.
  rewrite sort_desc_decorated, <- list_fmap_compose.
  apply list_fmap_id.
Qed.

(** One element without a key makes the whole sort raise. *)
Lemma sorted_reverse_raise {A} (key : A → Result Z) e l :
  Exists (λ x, key x = Raise e) l →
  Forall (λ x, ∀ e', key x = Raise e' → e' = e) l →
  sorted_reverse key l = Raise e.
Proof.
  intros Hex Hall. unfold sorted_reverse.
  assert (mapM (λ x, k ← key x; mret (k, x)) l = Raise e) as ->; [|done].
  induction l as [|x l IH]; [by inversion Hex|].
  apply Forall_cons in Hall as [Hx Hall]. simpl.
  destruct (key x) as [k|e'] eqn:Hk; simpl.
  - apply Exists_cons in Hex as [Hex|Hex]; [congruence|].
    rewrite IH; done.
  - f_equal. by apply Hx.
Qed.

(** ** [history], [arn] and [status] *)

Lemma extend_from_listed past pages :
  foldl (λ past page, past ++ default [] (ListForecastsPage.Forecasts page))
    past pages
  = past ++ listed pages.
Proof.
  revert past. unfold listed.
  induction pages as [|page pages IH]; intros past; csimpl.
  - by rewrite app_nil_r.
  - rewrite IH. by rewrite (assoc_L (++)).
Qed.

Lemma extend_pages_listed pages : extend_pages pages = listed pages.
Proof. apply extend_from_listed. Qed.

Lemma sort_history_total l :
  Forall (λ f, is_Some (ForecastSummary.LastModificationTime f)) l →
  sort_history l = Ok (sort_desc modified l).
Proof.
  intros Hall. apply sorted_reverse_total.
  eapply Forall_impl; [exact Hall|].
  intros f [t Ht]. unfold modified. by rewrite Ht.
Qed.

Lemma sort_history_missing l :
  Exists (λ f, ForecastSummary.LastModificationTime f = None) l →
  sort_history l = Raise (KeyError (Some "LastModificationTime")).
Proof.
  intros Hex. apply sorted_reverse_raise.
  - eapply Exists_impl; [exact Hex|]. by intros f ->.
  - apply Forall_forall. intros f _ e.
    destruct (ForecastSummary.LastModificationTime f); simpl; congruence.
Qed.

Lemma desc_modified_not_older l :
  Forall (λ f, is_Some (ForecastSummary.LastModificationTime f)) l →
  StronglySorted (desc modified) l → StronglySorted not_older l.
Proof.
  intros Hall Hs. induction Hs as [|a l Hs IH Ha]; [constructor|].
  apply Forall_cons in Hall as [[ta Hta] Hall].
  constructor; [by apply IH|].
  apply Forall_forall. intros b Hb.
  rewrite Forall_forall in Ha, Hall.
  destruct (Hall b Hb) as [tb Htb]. specialize (Ha b Hb).
  unfold desc, modified in Ha. rewrite Hta, Htb in Ha.
  by exists ta, tb.
Qed.

Section Forecast_properties.
Context {R : Type} (cli : Client R) (environ : gmap string string).
Implicit Types (self : Forecast) (w : World R).

(** [history] is one listing followed by the sort of what it answered. *)
Lemma history_run self w :
  history cli self w =
  let '(answer, r) := list_forecasts cli (history_filters self) (remote w) in
  (pages ← answer; sort_history (extend_pages pages),
   mkWorld r (calls w ++ [ListForecasts (history_filters self)]) (log w)).
Proof.
  unfold history, mbind, M_bind, invoke, lift.
  by destruct (list_forecasts _ _ _) as [[pages|e] r].
Qed.

(** [arn] depends on the remote state alone and sends one listing. *)
Lemma arn_run self w :
  arn cli self w =
  let '(a, r) := arn_from cli self (remote w) in
  (a, mkWorld r (calls w ++ [ListForecasts (history_filters self)]) (log w)).
Proof.
  unfold arn_from, arn, mbind, M_bind. rewrite !history_run. simpl.
  destruct (list_forecasts _ _ _) as [[pages|e] r]; simpl; [|done].
  by destruct (sort_history _) as [[|latest older]|e].
Qed.

Lemma status_run self w latest older w1 past_status r2 :
  history cli self w = (Ok (latest :: older), w1) →
  describe_forecast cli (ForecastSummary.ForecastArn latest) (remote w1)
    = (Ok past_status, r2) →
  fst (status cli self w) = status_of self past_status.
Proof.
  intros Hh Hd. unfold status, status_of, mbind, M_bind, invoke, lift.
  rewrite Hh. simpl. rewrite Hd. simpl.
  case_decide; [done|].
  destruct (datasets_changed _ _) as [[|]|e]; simpl; done.
Qed.

(** The dataset loop finds a dataset modified after the creation time
    when every dataset before it carries a time to compare. *)
Lemma datasets_changed_newer before dataset after creation t :
  Forall (λ d, is_Some (Dataset.LastModificationTime d)) before →
  Dataset.LastModificationTime dataset = Some t →
  t > creation →
  datasets_changed (before ++ dataset :: after) (Some creation) = Ok true.
Proof.
  intros Hb Ht Hgt. induction Hb as [|d before [td Hd] _ IH]; simpl.
  - rewrite Ht. simpl. by rewrite bool_decide_eq_true_2.
  - rewrite Hd. simpl. by case_bool_decide.
Qed.

Lemma datasets_changed_none datasets creation :
  Forall (λ d, ∃ t c, Dataset.LastModificationTime d = Some t
                      ∧ creation = Some c ∧ t ≤ c) datasets →
  datasets_changed datasets creation = Ok false.
Proof.
  induction 1 as [|d datasets (t & c & Ht & -> & Hle) _ IH]; simpl; [done|].
  rewrite Ht. simpl. rewrite bool_decide_eq_false_2 by lia. done.
Qed.

Lemma Status_getitem_unmapped name :
  (∀ s, Status_name s ≠ name) →
  Status_getitem (Some name) = Raise (KeyError (Some name)).
Proof.
  intros Hno. unfold Status_getitem.
  destruct (filter _ _) as [|s l] eqn:Hf; [done|].
  assert (s ∈ filter (λ s, Status_name s = name) Status_members) as Hin
    by (rewrite Hf; left).
  apply list_elem_of_filter in Hin as [Hs _]. by destruct (Hno s).
Qed.

(** C3: when the paginated listing for the dataset group answers no
    forecast at all, [status] returns [DOES_NOT_EXIST] and [arn] returns
    [None]; neither raises. *)
Theorem status_and_arn_of_empty_history self w pages r :
  list_forecasts cli
    [Filter.mk "DatasetGroupArn" "IS" (DatasetGroup.arn (_dataset_group self))]
    (remote w) = (Ok pages, r) →
  listed pages = [] →
  fst (status cli self w) = Ok DOES_NOT_EXIST
  ∧ fst (arn cli self w) = Ok None.
Proof.
  intros Hlist Hnone.
  assert (history cli self w
          = (Ok [], mkWorld r (calls w ++ [ListForecasts (history_filters self)])
                      (log w))) as Hh.
  { rewrite history_run. unfold history_filters. rewrite Hlist. simpl.
    by rewrite extend_pages_listed, Hnone. }
  unfold status, arn, mbind, M_bind. by rewrite Hh.
Qed.

(** C1: when the most recent forecast of the history was made by another
    predictor than the current one (the [PredictorArn] that
    [describe_forecast] reports differs from [self._predictor.arn]),
    [status] returns [DOES_NOT_EXIST], whatever status the service
    reports for that forecast, [ACTIVE] included. *)
Theorem status_other_predictor self w latest older w1 past_status r2 :
  history cli self w = (Ok (latest :: older), w1) →
  describe_forecast cli (ForecastSummary.ForecastArn latest) (remote w1)
    = (Ok past_status, r2) →
  DescribeForecastResponse.PredictorArn past_status
    ≠ Predictor.arn (_predictor self) →
  fst (status cli self w) = Ok DOES_NOT_EXIST.
Proof.
  intros Hh Hd Hne. rewrite (status_run _ _ _ _ _ _ _ Hh Hd).
  unfold status_of. by rewrite decide_True.
Qed.

(** C2: when a dataset of the group was modified strictly after the
    creation time of the most recent forecast, [status] returns
    [DOES_NOT_EXIST], whatever status the service reports.  The loop
    reaches that dataset: the datasets before it carry a
    last-modification time, as every dataset description does. *)
Theorem status_datasets_modified self w latest older w1 past_status r2
    creation before dataset after t :
  history cli self w = (Ok (latest :: older), w1) →
  describe_forecast cli (ForecastSummary.ForecastArn latest) (remote w1)
    = (Ok past_status, r2) →
  DescribeForecastResponse.CreationTime past_status = Some creation →
  DatasetGroup.datasets (_dataset_group self) = before ++ dataset :: after →
  Forall (λ d, is_Some (Dataset.LastModificationTime d)) before →
  Dataset.LastModificationTime dataset = Some t →
  t > creation →
  fst (status cli self w) = Ok DOES_NOT_EXIST.
Proof.
  intros Hh Hd Hc Hds Hbefore Ht Hgt. rewrite (status_run _ _ _ _ _ _ _ Hh Hd).
  unfold status_of. case_decide; [done|].
  rewrite Hds, Hc, (datasets_changed_newer _ _ _ _ t); done.
Qed.

(** C9: when the most recent forecast exists and is not stale (it was
    made by the current predictor and no dataset was modified after its
    creation) and the service reports a status that names no member of
    [Status], [status] raises the [KeyError] of the lookup; nothing in
    [status] catches it. *)
Theorem status_unmapped_raises self w latest older w1 past_status r2 name :
  history cli self w = (Ok (latest :: older), w1) →
  describe_forecast cli (ForecastSummary.ForecastArn latest) (remote w1)
    = (Ok past_status, r2) →
  DescribeForecastResponse.PredictorArn past_status
    = Predictor.arn (_predictor self) →
  Forall (λ d, ∃ t c,
            Dataset.LastModificationTime d = Some t
            ∧ DescribeForecastResponse.CreationTime past_status = Some c
            ∧ t ≤ c)
    (DatasetGroup.datasets (_dataset_group self)) →
  DescribeForecastResponse.Status past_status = Some name →
  (∀ s, Status_name s ≠ name) →
  fst (status cli self w) = Raise (KeyError (Some name)).
Proof.
  intros Hh Hd Hp Hfresh Hs Hno. rewrite (status_run _ _ _ _ _ _ _ Hh Hd).
  unfold status_of. rewrite decide_False by (by intros []).
  rewrite datasets_changed_none by done. simpl.
  rewrite Hs. by apply Status_getitem_unmapped.
Qed.

(** C8: [history] sends one paginated listing filtered on the ARN of the
    owning dataset group and returns exactly the forecasts of all its
    pages, in descending order of last-modification time; when the pages
    hold no forecast it returns the empty list and does not raise. *)
Theorem history_sorted_listing self w pages r :
  list_forecasts cli
    [Filter.mk "DatasetGroupArn" "IS" (DatasetGroup.arn (_dataset_group self))]
    (remote w) = (Ok pages, r) →
  Forall (λ f, is_Some (ForecastSummary.LastModificationTime f))
    (listed pages) →
  ∃ past,
    history cli self w
    = (Ok past,
       mkWorld r
         (calls w ++
          [ListForecasts
             [Filter.mk "DatasetGroupArn" "IS"
                (DatasetGroup.arn (_dataset_group self))]])
         (log w))
    ∧ past ≡ₚ listed pages
    ∧ StronglySorted not_older past
    ∧ (listed pages = [] → past = []).
Proof.
  intros Hlist Hall. exists (sort_desc modified (listed pages)).
  split; [|split; [|split]].
  - rewrite history_run. unfold history_filters. rewrite Hlist. simpl.
    by rewrite extend_pages_listed, sort_history_total.
  - apply sort_desc_perm.
  - apply desc_modified_not_older; [|apply sort_desc_sorted].
    by rewrite sort_desc_perm.
  - by intros ->.
Qed.

(** ** [create] *)

Lemma not_absorbed e :
  ¬ absorbed e →
  is_client_error "ResourceAlreadyExistsException" e = false
  ∧ is_client_error "ResourceInUseException" e = false.
Proof.
  intros Hno. destruct e as [code message| | | |]; simpl; try done.
  split; apply bool_decide_eq_false; intros ->; apply Hno; exists message; auto.
Qed.

(** [create] sends its one request and lets through what is not absorbed. *)
Lemma create_run self w request :
  create_forecast_request self = Ok request →
  ∃ lg,
    create cli self w =
    let '(answer, r) := create_forecast cli request (remote w) in
    (match answer with
     | Ok _ => Ok ()
     | Raise e =>
         if is_client_error "ResourceAlreadyExistsException" e then Ok ()
         else if is_client_error "ResourceInUseException" e then Ok ()
         else Raise e
     end,
     mkWorld r (calls w ++ [CreateForecast request]) (log w ++ lg)).
Proof.
  intros Hreq.
  unfold create, try_except, mbind, M_bind, invoke, lift, logger.
  rewrite Hreq. cbn [remote calls log].
  destruct (create_forecast cli request (remote w)) as [[[]|e] r].
  - by eexists [_].
  - destruct (is_client_error "ResourceAlreadyExistsException" e).
    { eexists [_; _]. cbn [remote calls log]. by rewrite <- (assoc_L (++)). }
    destruct (is_client_error "ResourceInUseException" e).
    { eexists [_; _]. cbn [remote calls log]. by rewrite <- (assoc_L (++)). }
    by eexists [_].
Qed.

(** [create] with the records it logs. *)
Lemma create_run_log self w request :
  create_forecast_request self = Ok request →
  create cli self w =
  let '(answer, r) := create_forecast cli request (remote w) in
  (match answer with
   | Ok _ => Ok ()
   | Raise e =>
       if is_client_error "ResourceAlreadyExistsException" e then Ok ()
       else if is_client_error "ResourceInUseException" e then Ok ()
       else Raise e
   end,
   mkWorld r (calls w ++ [CreateForecast request])
     (log w ++ create_log self answer)).
Proof.
  intros Hreq.
  unfold create, create_log, try_except, mbind, M_bind, invoke, lift, logger.
  rewrite Hreq. cbn [remote calls log].
  destruct (create_forecast cli request (remote w)) as [[[]|e] r]; [done|].
  destruct (is_client_error "ResourceAlreadyExistsException" e).
  { cbn [remote calls log]. by rewrite <- (assoc_L (++)). }
  destruct (is_client_error "ResourceInUseException" e); [|done].
  cbn [remote calls log]. by rewrite <- (assoc_L (++)).
Qed.

(** C4: two calls of [create] in a row do not raise when the service
    answers each request with success, with a resource-already-exists
    error or with a resource-in-use error: the request is sent both times
    and the two errors are absorbed, with no other effect than a debug
    record in the log ("is already creating", or "is updating" with the
    text of the error) after the info record of the attempt.  Any other
    error the service answers comes out of [create] as it is. *)
Theorem create_twice_absorbs self w request :
  create_forecast_request self = Ok request →
  (∀ answer1 r1 answer2 r2,
     create_forecast cli request (remote w) = (answer1, r1) →
     create_forecast cli request r1 = (answer2, r2) →
     benign answer1 → benign answer2 →
     (create cli self;; create cli self) w
     = (Ok (),
        mkWorld r2
          (calls w ++ [CreateForecast request; CreateForecast request])
          (log w ++ create_log self answer1 ++ create_log self answer2)))
  ∧ (∀ message r1,
       create_forecast cli request (remote w)
         = (Raise (ClientError "ResourceAlreadyExistsException" message), r1) →
       create cli self w
       = (Ok (),
          mkWorld r1 (calls w ++ [CreateForecast request])
            (log w ++
             [(INFO, "Creating forecast " +:+ forecast_name self);
              (DEBUG, "Forecast " +:+ forecast_name self
                      +:+ " is already creating")])))
  ∧ (∀ message r1,
       create_forecast cli request (remote w)
         = (Raise (ClientError "ResourceInUseException" message), r1) →
       create cli self w
       = (Ok (),
          mkWorld r1 (calls w ++ [CreateForecast request])
            (log w ++
             [(INFO, "Creating forecast " +:+ forecast_name self);
              (DEBUG, "Forecast " +:+ forecast_name self
                      +:+ " is updating: " +:+ message)])))
  ∧ (∀ e r1,
       create_forecast cli request (remote w) = (Raise e, r1) →
       ¬ absorbed e →
       create cli self w
       = (Raise e,
          mkWorld r1 (calls w ++ [CreateForecast request])
            (log w ++ [(INFO, "Creating forecast " +:+ forecast_name self)]))).
Proof.
  intros Hreq. split; [|split; [|split]].
  - intros answer1 r1 answer2 r2 H1 H2 Hb1 Hb2.
    assert (∀ answer, benign answer →
              match answer with
              | Ok _ => Ok ()
              | Raise e =>
                  if is_client_error "ResourceAlreadyExistsException" e
                  then Ok ()
                  else if is_client_error "ResourceInUseException" e
                  then Ok () else Raise e
              end = Ok ()) as Hok.
    { intros [[]|e]; [done|]. by intros [message [-> | ->]]. }
    unfold mbind, M_bind at 1.
    rewrite (create_run_log self w request Hreq), H1, (Hok _ Hb1).
    rewrite (create_run_log self _ request Hreq). cbn [remote calls log].
    rewrite H2, (Hok _ Hb2).
    by rewrite <- !(assoc_L (++)).
  - intros message r1 H1.
    by rewrite (create_run_log self w request Hreq), H1.
  - intros message r1 H1.
    by rewrite (create_run_log self w request Hreq), H1.
  - intros e r1 H1 Hno.
    rewrite (create_run_log self w request Hreq), H1. unfold create_log.
    by destruct (not_absorbed e Hno) as [-> ->].
Qed.

(** ** [export] *)

Lemma not_str_Some a : a ≠ "" → not_str (Some a) = false.
Proof. intros Ha. simpl. by apply bool_decide_eq_false. Qed.

(** One evaluation of [self.arn] whose outcome [H] gives, then one request
    whose answer [H] gives. *)
Ltac resolve_arn H :=
  cbv beta iota; cbn [remote calls log]; rewrite arn_run;
  cbn [remote calls log]; rewrite H.
Ltac answer_with H :=
  unfold lift, invoke, logger, export_job_arn; cbn [remote calls log];
  rewrite H.

(** C5, as the code has it: when [arn] resolves to [None], [export]
    raises the [ValueError]; the listing by which [arn] was resolved is
    the only request it has sent, no describe or create request
    follows. *)
Theorem export_without_arn_raises self file w r :
  arn_from cli self (remote w) = (Ok None, r) →
  export cli environ self file w
  = (Raise (ValueError "Forecast does not yet exist - cannot perform export."),
     mkWorld r
       (calls w ++
        [ListForecasts
           [Filter.mk "DatasetGroupArn" "IS"
              (DatasetGroup.arn (_dataset_group self))]])
       (log w)).
Proof.
  intros Harn. unfold export, mbind, M_bind.
  resolve_arn Harn. done.
Qed.

(** C6: on a forecast that exists (each evaluation of [arn] resolves)
    and has no export job yet (the describe request is answered with
    resource-not-found), [export] sends exactly one create request, for
    the destination [s3://{bucket}/exports/export_{group}_{timestamp}],
    and returns an [Export] of status [CREATE_PENDING] when the service
    accepts the request; an error answered to it comes out of [export]. *)
Theorem export_creates_job self file w a1 r1 a2 r2 message r3 a3 r4
    answer r5 :
  arn_from cli self (remote w) = (Ok (Some a1), r1) →
  a1 ≠ "" →
  arn_from cli self r1 = (Ok (Some a2), r2) →
  describe_forecast_export_job cli
    (str_replace ":forecast/" ":forecast-export-job/" a2
     +:+ "/" +:+ export_name self) r2
    = (Raise (ClientError "ResourceNotFoundException" message), r3) →
  arn_from cli self r3 = (Ok a3, r4) →
  create_forecast_export_job cli (export_request environ self file a3) r4
    = (answer, r5) →
  ∃ w',
    export cli environ self file w
    = (match answer with
       | Ok _ => Ok (ForecastExport.mk CREATE_PENDING)
       | Raise e => Raise e
       end, w')
    ∧ remote w' = r5
    ∧ calls w'
      = calls w ++
        [ListForecasts (history_filters self);
         ListForecasts (history_filters self);
         DescribeForecastExportJob
           (str_replace ":forecast/" ":forecast-export-job/" a2
            +:+ "/" +:+ export_name self);
         ListForecasts (history_filters self);
         CreateForecastExportJob (export_request environ self file a3)]
    ∧ S3Config.Path
        (CreateForecastExportJobRequest.Destination
           (export_request environ self file a3))
      = "s3://" +:+ DatasetFile.bucket file +:+ "/exports/export_"
        +:+ DatasetGroup.dataset_group_name (_dataset_group self)
        +:+ "_" +:+ DatasetGroup.latest_timestamp (_dataset_group self).
Proof.
  intros H1 Hne H2 Hd H3 Hc.
  unfold export, try_except, mbind, M_bind.
  resolve_arn H1. rewrite (not_str_Some _ Hne).
  resolve_arn H2. answer_with Hd.
  change (is_client_error "ResourceInUseException"
            (ClientError "ResourceNotFoundException" message)) with false.
  change (is_client_error "ResourceNotFoundException"
            (ClientError "ResourceNotFoundException" message)) with true.
  resolve_arn H3. answer_with Hc.
  destruct answer as [[]|e]; eexists; (split; [reflexivity|]);
    cbn [remote calls log]; (split; [done|]);
    (split; [by rewrite <- !(assoc_L (++)) | reflexivity]).
Qed.

(** C7: when the describe request of [export] is answered with
    resource-in-use, the error is logged, no create request is sent and
    the returned [Export] still has the status it was made with,
    [DOES_NOT_EXIST]: this branch does not set it. *)
Theorem export_in_use_keeps_default self file w a1 r1 a2 r2 message r3 :
  arn_from cli self (remote w) = (Ok (Some a1), r1) →
  a1 ≠ "" →
  arn_from cli self r1 = (Ok (Some a2), r2) →
  describe_forecast_export_job cli
    (str_replace ":forecast/" ":forecast-export-job/" a2
     +:+ "/" +:+ export_name self) r2
    = (Raise (ClientError "ResourceInUseException" message), r3) →
  export cli environ self file w
  = (Ok (ForecastExport.mk DOES_NOT_EXIST),
     mkWorld r3
       (calls w ++
        [ListForecasts (history_filters self);
         ListForecasts (history_filters self);
         DescribeForecastExportJob
           (str_replace ":forecast/" ":forecast-export-job/" a2
            +:+ "/" +:+ export_name self)])
       (log w ++
        [(DEBUG, "Forecast export " +:+ export_name self
                 +:+ " is updating: " +:+ message);
         (DEBUG, "Export status for " +:+ export_name self
                 +:+ " is Status.DOES_NOT_EXIST")])).
Proof.
  intros H1 Hne H2 Hd.
  unfold export, try_except, mbind, M_bind.
  resolve_arn H1. rewrite (not_str_Some _ Hne).
  resolve_arn H2. answer_with Hd.
  change (is_client_error "ResourceInUseException"
            (ClientError "ResourceInUseException" message)) with true.
  unfold mret, M_ret. cbv beta iota.
  cbn [remote calls log ForecastExport.status ForecastExport.new].
  rewrite <- !(assoc_L (++)). reflexivity.
Qed.

End Forecast_properties.

(** C10: the name under which [create] sends its request is
    [forecast_{group}_{timestamp}], a function of the name of the dataset
    group and of its latest timestamp alone: two forecasts that agree on
    these send their requests under the same name, whatever their
    predictor, configuration, client and remote state. *)
Theorem create_name_determined {R1 R2} (cli1 : Client R1) (cli2 : Client R2)
    (self1 self2 : Forecast) (w1 : World R1) (w2 : World R2) :
  DatasetGroup.dataset_group_name (_dataset_group self1)
    = DatasetGroup.dataset_group_name (_dataset_group self2) →
  DatasetGroup.latest_timestamp (_dataset_group self1)
    = DatasetGroup.latest_timestamp (_dataset_group self2) →
  Forall (λ k, _forecast_config self1 !! k = None)
    ["ForecastName"; "PredictorArn"; "Tags"] →
  Forall (λ k, _forecast_config self2 !! k = None)
    ["ForecastName"; "PredictorArn"; "Tags"] →
  ∃ request1 request2,
    calls (snd (create cli1 self1 w1)) = calls w1 ++ [CreateForecast request1]
    ∧ calls (snd (create cli2 self2 w2)) = calls w2 ++ [CreateForecast request2]
    ∧ CreateForecastRequest.ForecastName request1
      = "forecast_"
        +:+ DatasetGroup.dataset_group_name (_dataset_group self1)
        +:+ "_" +:+ DatasetGroup.latest_timestamp (_dataset_group self1)
    ∧ CreateForecastRequest.ForecastName request2
      = CreateForecastRequest.ForecastName request1.
Proof.
  intros Hname Htime Hc1 Hc2.
  assert (∀ self,
            Forall (λ k, _forecast_config self !! k = None)
              ["ForecastName"; "PredictorArn"; "Tags"] →
            create_forecast_request self
            = Ok (CreateForecastRequest.mk (forecast_name self)
                    (Predictor.arn (_predictor self)) (tags self)
                    (_forecast_config self))) as Hreq.
  { intros self Hc. unfold create_forecast_request, keyword_arguments.
    by rewrite decide_True. }
  destruct (create_run cli1 self1 w1 _ (Hreq self1 Hc1)) as [lg1 Hrun1].
  destruct (create_run cli2 self2 w2 _ (Hreq self2 Hc2)) as [lg2 Hrun2].
  do 2 eexists. split; [|split; [|split]].
  - rewrite Hrun1. by destruct (create_forecast cli1 _ _).
  - rewrite Hrun2. by destruct (create_forecast cli2 _ _).
  - reflexivity.
  - simpl. unfold forecast_name, _latest_timestamp. by rewrite Hname, Htime.
Qed.

(** ** The properties on the in-memory service *)

(** C3 at a service that holds no forecast. *)
Lemma status_and_arn_of_empty_history_witness :
  fst (status Fake.client (Fake.sales []) (Fake.start Fake.empty))
    = Ok DOES_NOT_EXIST
  ∧ fst (arn Fake.client (Fake.sales []) (Fake.start Fake.empty)) = Ok None.
Proof.
  apply (status_and_arn_of_empty_history Fake.client (Fake.sales [])
           (Fake.start Fake.empty) [ListForecastsPage.mk (Some [])] Fake.empty);
    reflexivity.
Defined.

(** C1 at a forecast made by predictor A and reported [ACTIVE], while the
    current predictor is B. *)
Lemma status_other_predictor_witness :
  fst (status Fake.client (Fake.sales [])
         (Fake.start
            (Fake.holding
               (Fake.made_with
                  "arn:aws:forecast:us-east-1:111111111111:predictor/A" "ACTIVE")
               false)))
  = Ok DOES_NOT_EXIST.
Proof.
  eapply (status_other_predictor Fake.client).
  - reflexivity.
  - reflexivity.
  - vm_compute. discriminate.
Defined.

(** C2 at a forecast created at time 10 by the current predictor, with a
    dataset modified at 5 and another at 11. *)
Lemma status_datasets_modified_witness :
  fst (status Fake.client
         (Fake.sales [Dataset.mk (Some 5); Dataset.mk (Some 11)])
         (Fake.start
            (Fake.holding
               (Fake.made_with
                  "arn:aws:forecast:us-east-1:111111111111:predictor/B" "ACTIVE")
               false)))
  = Ok DOES_NOT_EXIST.
Proof.
  eapply (status_datasets_modified Fake.client _ _ _ _ _ _ _ 10
            [Dataset.mk (Some 5)] (Dataset.mk (Some 11)) [] 11).
  - reflexivity.
  - reflexivity.
  - reflexivity.
  - reflexivity.
  - repeat constructor. by exists 5.
  - reflexivity.
  - lia.
Defined.

(** Outside what C2 covers: a dataset without last-modification time in
    front of the newer one makes the comparison, and so [status], raise. *)
Example status_dataset_without_time :
  fst (status Fake.client
         (Fake.sales [Dataset.mk None; Dataset.mk (Some 11)])
         (Fake.start
            (Fake.holding
               (Fake.made_with
                  "arn:aws:forecast:us-east-1:111111111111:predictor/B" "ACTIVE")
               false)))
  = Raise (TypeError
             "'>' not supported between instances of 'NoneType' and 'datetime.datetime'").
Proof. reflexivity. Qed.

(** C9 at a fresh forecast whose reported status is not a member. *)
Lemma status_unmapped_raises_witness :
  fst (status Fake.client (Fake.sales [Dataset.mk (Some 5)])
         (Fake.start
            (Fake.holding
               (Fake.made_with
                  "arn:aws:forecast:us-east-1:111111111111:predictor/B" "BOGUS")
               false)))
  = Raise (KeyError (Some "BOGUS")).
Proof.
  eapply (status_unmapped_raises Fake.client).
  - reflexivity.
  - reflexivity.
  - reflexivity.
  - repeat constructor. exists 5, 10.
    split; [reflexivity|]. split; [reflexivity | lia].
  - reflexivity.
  - intros []; vm_compute; discriminate.
Defined.

(** C8 at a service that lists the older forecast first. *)
Lemma history_sorted_listing_witness :
  ∃ past,
    fst (history Fake.client (Fake.sales []) (Fake.start Fake.two_forecasts))
      = Ok past
    ∧ ForecastSummary.ForecastName <$> past = [Some "second"; Some "first"]
    ∧ StronglySorted not_older past.
Proof.
  destruct (history_sorted_listing Fake.client (Fake.sales [])
              (Fake.start Fake.two_forecasts)
              [ListForecastsPage.mk
                 (Some (Fake.summary <$> Fake.forecasts Fake.two_forecasts))]
              Fake.two_forecasts)
    as (past & Hrun & _ & Hsorted & _).
  - reflexivity.
  - repeat constructor; by eexists.
  - exists past. split; [by rewrite Hrun|]. split; [|done].
    vm_compute in Hrun. by injection Hrun as <-.
Defined.

(** C4 at an empty service: the first request creates the forecast, the
    second one is answered with resource-already-exists and leaves one
    debug record. *)
Lemma create_twice_absorbs_witness :
  fst ((create Fake.client (Fake.sales []);; create Fake.client (Fake.sales []))
         (Fake.start Fake.empty))
    = Ok ()
  ∧ log (snd ((create Fake.client (Fake.sales []);;
               create Fake.client (Fake.sales []))
                (Fake.start Fake.empty)))
    = [(INFO, "Creating forecast forecast_sales_2021-05-01T00:00:00Z");
       (INFO, "Creating forecast forecast_sales_2021-05-01T00:00:00Z");
       (DEBUG, "Forecast forecast_sales_2021-05-01T00:00:00Z is already creating")].
Proof.
  pose proof (create_twice_absorbs Fake.client (Fake.sales [])
                (Fake.start Fake.empty) _ eq_refl) as [Htwice _].
  rewrite (Htwice _ _ _ _ eq_refl eq_refl I
             (ex_intro _ "forecast already exists" (or_introl eq_refl))).
  split; reflexivity.
Defined.

(** C5, as the claim has it, fails: with no forecast to resolve, [export]
    raises after it has sent the listing request of [arn]. *)
Lemma export_without_arn_sends_listing :
  fst (arn Fake.client (Fake.sales []) (Fake.start Fake.empty)) = Ok None
  ∧ ¬ (fst (export Fake.client Fake.environ (Fake.sales []) Fake.file
              (Fake.start Fake.empty))
         = Raise (ValueError
                    "Forecast does not yet exist - cannot perform export.")
       ∧ calls (snd (export Fake.client Fake.environ (Fake.sales []) Fake.file
                       (Fake.start Fake.empty)))
         = calls (Fake.start Fake.empty)).
Proof.
  split; [reflexivity|].
  intros [_ Hcalls]. vm_compute in Hcalls. discriminate Hcalls.
Defined.

Lemma export_without_arn_raises_witness :
  export Fake.client Fake.environ (Fake.sales []) Fake.file
    (Fake.start Fake.empty)
  = (Raise (ValueError "Forecast does not yet exist - cannot perform export."),
     mkWorld Fake.empty
       [ListForecasts
          [Filter.mk "DatasetGroupArn" "IS"
             (Some "arn:aws:forecast:us-east-1:111111111111:dataset-group/sales")]]
       []).
Proof.
  apply (export_without_arn_raises Fake.client Fake.environ (Fake.sales [])
           Fake.file (Fake.start Fake.empty) Fake.empty).
  reflexivity.
Defined.

(** C6 at an active forecast without export job. *)
Lemma export_creates_job_witness :
  ∃ w',
    export Fake.client Fake.environ (Fake.sales []) Fake.file
      (Fake.start
         (Fake.holding
            (Fake.made_with
               "arn:aws:forecast:us-east-1:111111111111:predictor/B" "ACTIVE")
            false))
    = (Ok (ForecastExport.mk CREATE_PENDING), w')
    ∧ filter (λ c, is_create_export_job c) (calls w')
      = [CreateForecastExportJob
           (CreateForecastExportJobRequest.mk
              (Some "arn:aws:forecast:us-east-1:111111111111:forecast/forecast_sales_2021-05-01T00:00:00Z")
              "export_sales_2021-05-01T00:00:00Z"
              (S3Config.mk
                 "s3://data-bucket/exports/export_sales_2021-05-01T00:00:00Z"
                 (Some "arn:aws:iam::111111111111:role/forecast")))].
Proof.
  edestruct (export_creates_job Fake.client Fake.environ (Fake.sales [])
               Fake.file
               (Fake.start
                  (Fake.holding
                     (Fake.made_with
                        "arn:aws:forecast:us-east-1:111111111111:predictor/B"
                        "ACTIVE")
                     false)))
    as (w' & Hrun & _ & Hcalls & _).
  - reflexivity.
  - discriminate.
  - reflexivity.
  - reflexivity.
  - reflexivity.
  - reflexivity.
  - exists w'. split; [exact Hrun|]. rewrite Hcalls. reflexivity.
Defined.

(** C7 at an active forecast whose export job is in use. *)
Lemma export_in_use_keeps_default_witness :
  fst (export Fake.client Fake.environ (Fake.sales []) Fake.file
         (Fake.start
            (Fake.holding
               (Fake.made_with
                  "arn:aws:forecast:us-east-1:111111111111:predictor/B" "ACTIVE")
               true)))
  = Ok (ForecastExport.mk DOES_NOT_EXIST).
Proof.
  erewrite (export_in_use_keeps_default Fake.client Fake.environ).
  - reflexivity.
  - reflexivity.
  - discriminate.
  - reflexivity.
  - reflexivity.
Defined.

(** C10 at the dataset group "sales" with latest timestamp
    2021-05-01T00:00:00Z, for two predictors and configurations. *)
Lemma create_name_determined_witness :
  ∃ request1 request2,
    calls (snd (create Fake.client (Fake.sales []) (Fake.start Fake.empty)))
      = [CreateForecast request1]
    ∧ calls (snd (create Fake.client Fake.sales_retrained
                    (Fake.start Fake.two_forecasts)))
      = [CreateForecast request2]
    ∧ CreateForecastRequest.ForecastName request1
      = "forecast_sales_2021-05-01T00:00:00Z"
    ∧ CreateForecastRequest.ForecastName request2
      = "forecast_sales_2021-05-01T00:00:00Z".
Proof.
  destruct (create_name_determined Fake.client Fake.client (Fake.sales [])
              Fake.sales_retrained (Fake.start Fake.empty)
              (Fake.start Fake.two_forecasts))
    as (request1 & request2 & H1 & H2 & Hn1 & Hn2).
  - reflexivity.
  - reflexivity.
  - repeat constructor.
  - repeat constructor.
  - exists request1, request2. rewrite Hn2, Hn1. done.
Defined.

(** * Further properties of the code *)

Lemma filter_agree {A} (P Q : A → Prop) `{∀ x, Decision (P x)}
    `{∀ x, Decision (Q x)} (l : list A) :
  Forall (λ x, P x ↔ Q x) l → filter P l = filter Q l.
Proof.
  induction 1 as [|x l Hx _ IH]; [done|].
  rewrite !filter_cons, IH.
  destruct (decide (P x)), (decide (Q x)); tauto.
Qed.

Lemma Forall_or_missing_time l :
  Forall (λ f, is_Some (ForecastSummary.LastModificationTime f)) l
  ∨ Exists (λ f, ForecastSummary.LastModificationTime f = None) l.
Proof.
  induction l as [|f l [IH|IH]]; [by left| |].
  - destruct (ForecastSummary.LastModificationTime f) as [t|] eqn:Ht.
    + left. constructor; [by rewrite Ht | done].
    + right. by left.
  - right. by right.
Qed.

Lemma Status_getitem_name s : Status_getitem (Some (Status_name s)) = Ok s.
Proof. by destruct s. Qed.

(** The head of a non-empty descending list is not below any element. *)
Lemma sort_desc_head {A} (key : A → Z) l x :
  x ∈ l →
  ∃ latest rest,
    sort_desc key l = latest :: rest
    ∧ latest ∈ l
    ∧ ∀ y, y ∈ l → key y ≤ key latest.
Proof.
  intros Hx.
  destruct (sort_desc key l) as [|latest rest] eqn:Hs.
  { assert (l ≡ₚ []) as Hnil by (rewrite <- Hs; symmetry; apply sort_desc_perm).
    apply Permutation_nil_r in Hnil as ->. by apply elem_of_nil in Hx. }
  exists latest, rest. split; [done|].
  pose proof (sort_desc_sorted key l) as Hsorted. rewrite Hs in Hsorted.
  pose proof (sort_desc_perm key l) as Hperm. rewrite Hs in Hperm.
  split.
  - rewrite <- Hperm. left.
  - intros y Hy. rewrite <- Hperm in Hy.
    apply elem_of_cons in Hy as [->|Hy]; [done|].
    apply StronglySorted_inv in Hsorted as [_ Hall].
    rewrite Forall_forall in Hall. by apply Hall.
Qed.

Section Forecast_reads.
Context {R : Type} (cli : Client R) (environ : gmap string string).
Implicit Types (self : Forecast) (w : World R).

(** X1: an error that interrupts the listing of forecasts comes out of
    [history], [arn], [status] and [export] alike, and the listing is the
    only request each of them has sent. *)
Theorem listing_error_propagates self file w e r :
  list_forecasts cli
    [Filter.mk "DatasetGroupArn" "IS" (DatasetGroup.arn (_dataset_group self))]
    (remote w) = (Raise e, r) →
  ∃ w',
    w' = mkWorld r
           (calls w ++
            [ListForecasts
               [Filter.mk "DatasetGroupArn" "IS"
                  (DatasetGroup.arn (_dataset_group self))]])
           (log w)
    ∧ history cli self w = (Raise e, w')
    ∧ arn cli self w = (Raise e, w')
    ∧ status cli self w = (Raise e, w')
    ∧ export cli environ self file w = (Raise e, w').
Proof.
  intros Hlist. eexists. split; [reflexivity|].
  assert (history cli self w
          = (Raise e,
             mkWorld r (calls w ++ [ListForecasts (history_filters self)])
               (log w))) as Hh.
  { rewrite history_run. unfold history_filters. by rewrite Hlist. }
  unfold export, status, arn, mbind, M_bind. by rewrite Hh.
Qed.

(** X2: one listed forecast without the key [LastModificationTime] makes
    the sort of [history] raise [KeyError], whatever the other forecasts
    are; [arn] and [status] raise it too. *)
Theorem history_missing_sort_key self w pages r :
  list_forecasts cli
    [Filter.mk "DatasetGroupArn" "IS" (DatasetGroup.arn (_dataset_group self))]
    (remote w) = (Ok pages, r) →
  Exists (λ f, ForecastSummary.LastModificationTime f = None) (listed pages) →
  fst (history cli self w) = Raise (KeyError (Some "LastModificationTime"))
  ∧ fst (arn cli self w) = Raise (KeyError (Some "LastModificationTime"))
  ∧ fst (status cli self w) = Raise (KeyError (Some "LastModificationTime")).
Proof.
  intros Hlist Hex.
  assert (∃ w', history cli self w
                = (Raise (KeyError (Some "LastModificationTime")), w'))
    as [w' Hh].
  { eexists. rewrite history_run. unfold history_filters. rewrite Hlist. simpl.
    by rewrite extend_pages_listed, sort_history_missing. }
  unfold status, arn, mbind, M_bind. by rewrite Hh.
Qed.

(** What [history] returns is the stable sort of what was listed. *)
Lemma history_returns self w past w1 :
  history cli self w = (Ok past, w1) →
  ∃ pages,
    fst (list_forecasts cli (history_filters self) (remote w)) = Ok pages
    ∧ Forall (λ f, is_Some (ForecastSummary.LastModificationTime f))
        (listed pages)
    ∧ past = sort_desc modified (listed pages).
Proof.
  rewrite history_run.
  destruct (list_forecasts _ _ _) as [[pages|e] r]; simpl; [|done].
  rewrite extend_pages_listed. intros Hh. exists pages. split; [done|].
  destruct (Forall_or_missing_time (listed pages)) as [Hall|Hex].
  - rewrite sort_history_total in Hh by done. by simplify_eq.
  - rewrite sort_history_missing in Hh by done. done.
Qed.

(** X3: the sort of [history] is stable: the forecasts that share a
    last-modification time come out in the order in which the listing
    answered them. *)
Theorem history_keeps_order_of_ties self w pages r past w1 :
  list_forecasts cli
    [Filter.mk "DatasetGroupArn" "IS" (DatasetGroup.arn (_dataset_group self))]
    (remote w) = (Ok pages, r) →
  history cli self w = (Ok past, w1) →
  ∀ t,
    filter (λ f, ForecastSummary.LastModificationTime f = Some t) past
    = filter (λ f, ForecastSummary.LastModificationTime f = Some t)
        (listed pages).
Proof.
  intros Hlist Hh t.
  destruct (history_returns _ _ _ _ Hh) as (pages' & Hlist' & Hall & ->).
  unfold history_filters in Hlist'. rewrite Hlist in Hlist'.
  simpl in Hlist'. simplify_eq.
  assert (∀ l, Forall (λ f, is_Some (ForecastSummary.LastModificationTime f)) l →
            filter (λ f, ForecastSummary.LastModificationTime f = Some t) l
            = filter (λ f, modified f = t) l) as Hkey.
  { intros l Hl. apply filter_agree.
    eapply Forall_impl; [exact Hl|].
    intros f [tf Hf]. unfold modified. rewrite Hf. simpl.
    split; congruence. }
  rewrite !Hkey; [apply sort_desc_stable | done |].
  by rewrite sort_desc_perm.
Qed.

(** X4: when forecasts are listed, [arn] is the [ForecastArn] of one whose
    last-modification time no listed forecast exceeds. *)
Theorem arn_of_most_recent self w pages r f :
  list_forecasts cli
    [Filter.mk "DatasetGroupArn" "IS" (DatasetGroup.arn (_dataset_group self))]
    (remote w) = (Ok pages, r) →
  Forall (λ f, is_Some (ForecastSummary.LastModificationTime f))
    (listed pages) →
  f ∈ listed pages →
  ∃ latest,
    latest ∈ listed pages
    ∧ (∀ other, other ∈ listed pages → not_older latest other)
    ∧ fst (arn cli self w) = Ok (ForecastSummary.ForecastArn latest).
Proof.
  intros Hlist Hall Hf.
  destruct (sort_desc_head modified _ _ Hf)
    as (latest & rest & Hs & Hin & Hmax).
  exists latest. split; [done|]. split.
  - intros other Hother. rewrite Forall_forall in Hall.
    destruct (Hall _ Hin) as [tl Hl]. destruct (Hall _ Hother) as [to Ho].
    specialize (Hmax _ Hother). unfold modified in Hmax.
    rewrite Hl, Ho in Hmax. by exists tl, to.
  - unfold arn, mbind, M_bind. rewrite history_run.
    unfold history_filters. rewrite Hlist. simpl.
    by rewrite extend_pages_listed, sort_history_total, Hs.
Qed.

End Forecast_reads.

Section Forecast_status.
Context {R : Type} (cli : Client R).
Implicit Types (self : Forecast) (w : World R).

(** The dataset loop raises at the first dataset it cannot compare, when
    no dataset before it was modified after the creation time. *)
Lemma datasets_changed_raises before dataset after creation :
  Forall (λ d, ∃ t c, Dataset.LastModificationTime d = Some t
                      ∧ creation = Some c ∧ t ≤ c) before →
  Dataset.LastModificationTime dataset = None ∨ creation = None →
  datasets_changed (before ++ dataset :: after) creation
  = Raise (TypeError
             ("'>' not supported between instances of '"
              +:+ operand_type (Dataset.LastModificationTime dataset)
              +:+ "' and '" +:+ operand_type creation +:+ "'")).
Proof.
  intros Hb Hnone.
  induction Hb as [|d before (t & c & Ht & Hc & Hle) _ IH]; simpl.
  - destruct Hnone as [-> | ->]; [done|].
    by destruct (Dataset.LastModificationTime dataset).
  - rewrite Ht. destruct creation as [c'|]; [|done]. simplify_eq.
    simpl. rewrite bool_decide_eq_false_2 by lia. exact IH.
Qed.

(** X5: for a most recent forecast made by the current predictor, with no
    dataset modified after its creation, [status] is the member of
    [Status] whose name the service reports. *)
Theorem status_reports_remote_status self w latest older w1 past_status r2 s :
  history cli self w = (Ok (latest :: older), w1) →
  describe_forecast cli (ForecastSummary.ForecastArn latest) (remote w1)
    = (Ok past_status, r2) →
  DescribeForecastResponse.PredictorArn past_status
    = Predictor.arn (_predictor self) →
  Forall (λ d, ∃ t c,
            Dataset.LastModificationTime d = Some t
            ∧ DescribeForecastResponse.CreationTime past_status = Some c
            ∧ t ≤ c)
    (DatasetGroup.datasets (_dataset_group self)) →
  DescribeForecastResponse.Status past_status = Some (Status_name s) →
  status cli self w
  = (Ok s,
     mkWorld r2
       (calls w1 ++ [DescribeForecast (ForecastSummary.ForecastArn latest)])
       (log w1)).
Proof.
  intros Hh Hd Hp Hfresh Hs.
  unfold status, mbind, M_bind, invoke, lift.
  rewrite Hh. simpl. rewrite Hd. simpl.
  rewrite decide_False by (by intros []).
  rewrite datasets_changed_none by done.
  by rewrite Hs, Status_getitem_name.
Qed.

(** X6: an error answered to the describe request of [status] comes out of
    [status]; the listing and this request are all it has sent. *)
Theorem status_describe_error self w latest older w1 e r2 :
  history cli self w = (Ok (latest :: older), w1) →
  describe_forecast cli (ForecastSummary.ForecastArn latest) (remote w1)
    = (Raise e, r2) →
  status cli self w
  = (Raise e,
     mkWorld r2
       (calls w1 ++ [DescribeForecast (ForecastSummary.ForecastArn latest)])
       (log w1)).
Proof.
  intros Hh Hd. unfold status, mbind, M_bind, invoke.
  rewrite Hh. simpl. by rewrite Hd.
Qed.

(** X7: for a most recent forecast made by the current predictor, a
    dataset without last-modification time, or a description without
    creation time, makes [status] raise [TypeError] when the loop reaches
    the comparison, that is when no earlier dataset is newer than the
    forecast.  The error names the types of the two operands in their
    order: ['NoneType'] for the missing time, ['datetime.datetime'] for
    one that is present. *)
Theorem status_missing_time self w latest older w1 past_status r2
    before dataset after :
  history cli self w = (Ok (latest :: older), w1) →
  describe_forecast cli (ForecastSummary.ForecastArn latest) (remote w1)
    = (Ok past_status, r2) →
  DescribeForecastResponse.PredictorArn past_status
    = Predictor.arn (_predictor self) →
  DatasetGroup.datasets (_dataset_group self) = before ++ dataset :: after →
  Forall (λ d, ∃ t c,
            Dataset.LastModificationTime d = Some t
            ∧ DescribeForecastResponse.CreationTime past_status = Some c
            ∧ t ≤ c) before →
  Dataset.LastModificationTime dataset = None
  ∨ DescribeForecastResponse.CreationTime past_status = None →
  fst (status cli self w)
  = Raise (TypeError
             ("'>' not supported between instances of '"
              +:+ operand_type (Dataset.LastModificationTime dataset)
              +:+ "' and '"
              +:+ operand_type
                    (DescribeForecastResponse.CreationTime past_status)
              +:+ "'")).
Proof.
  intros Hh Hd Hp Hds Hbefore Hnone.
  rewrite (status_run _ _ _ _ _ _ _ _ Hh Hd). unfold status_of.
  rewrite decide_False by (by intros []).
  by rewrite Hds, datasets_changed_raises.
Qed.

(** X8: [status] only reads: whatever the service answers, it sends the
    listing and at most one describe request, and never a create
    request. *)
Theorem status_only_reads self w :
  ∃ added,
    calls (snd (status cli self w)) = calls w ++ added
    ∧ Forall (λ c, is_read_request c) added
    ∧ (added = [ListForecasts (history_filters self)]
       ∨ ∃ a, added = [ListForecasts (history_filters self);
                       DescribeForecast a]).
Proof.
  unfold status, mbind, M_bind. rewrite history_run.
  destruct (list_forecasts _ _ _) as [[pages|e] r]; simpl;
    [|eexists; split; [reflexivity|]; split; [by repeat constructor | by left]].
  destruct (sort_history _) as [[|latest older]|e]; simpl;
    try (eexists; split; [reflexivity|]; split;
         [by repeat constructor | by left]).
  unfold invoke, lift, logger. simpl.
  destruct (describe_forecast _ _ _) as [[past_status|e] r2]; simpl.
  - case_decide; simpl.
    { eexists; split; [by rewrite <- (assoc_L (++))|].
      split; [by repeat constructor | right; by eexists]. }
    destruct (datasets_changed _ _) as [[|]|e]; simpl;
      (eexists; split; [by rewrite <- (assoc_L (++))|];
       split; [by repeat constructor | right; by eexists]).
  - eexists; split; [by rewrite <- (assoc_L (++))|].
    split; [by repeat constructor | right; by eexists].
Qed.

(** X9: a pass-through option named like one of the explicit keywords of
    the create request ([ForecastName], [PredictorArn], [Tags]) makes
    [create] raise a [TypeError] after its first log record and before any
    request is sent; the [except] clauses do not absorb it.  The text of
    the error is the interpreter's and is not stated. *)
Theorem create_repeated_keyword self w k :
  k ∈ ["ForecastName"; "PredictorArn"; "Tags"] →
  is_Some (_forecast_config self !! k) →
  ∃ message,
    create cli self w
    = (Raise (TypeError message),
       mkWorld (remote w) (calls w)
         (log w ++ [(INFO, "Creating forecast " +:+ forecast_name self)])).
Proof.
  intros Hk [v Hv]. eexists.
  unfold create, try_except, mbind, M_bind, lift, logger.
  unfold create_forecast_request, keyword_arguments.
  rewrite decide_False; [done|].
  intros Hall. rewrite Forall_forall in Hall.
  specialize (Hall k Hk). congruence.
Qed.

(** X10: whatever the service answers, [create] sends nothing but its one
    create request, which carries the predictor's ARN, the tags and the
    pass-through options unchanged; it never lists or describes. *)
Theorem create_sends_one_request self w :
  Forall (λ k, _forecast_config self !! k = None)
    ["ForecastName"; "PredictorArn"; "Tags"] →
  calls (snd (create cli self w))
  = calls w ++
    [CreateForecast
       (CreateForecastRequest.mk
          ("forecast_"
           +:+ DatasetGroup.dataset_group_name (_dataset_group self)
           +:+ "_" +:+ DatasetGroup.latest_timestamp (_dataset_group self))
          (Predictor.arn (_predictor self)) (tags self)
          (_forecast_config self))].
Proof.
  intros Hok.
  assert (create_forecast_request self
          = Ok (CreateForecastRequest.mk (forecast_name self)
                  (Predictor.arn (_predictor self)) (tags self)
                  (_forecast_config self))) as Hreq.
  { unfold create_forecast_request, keyword_arguments.
    by rewrite decide_True. }
  destruct (create_run cli self w _ Hreq) as [lg ->].
  by destruct (create_forecast _ _ _).
Qed.

End Forecast_status.

Section Forecast_export.
Context {R : Type} (cli : Client R) (environ : gmap string string).
Implicit Types (self : Forecast) (w : World R).

Ltac next_arn H :=
  cbv beta iota; cbn [remote calls log]; rewrite arn_run;
  cbn [remote calls log]; rewrite H.
Ltac next_answer H :=
  unfold lift, invoke, logger, export_job_arn; cbn [remote calls log];
  rewrite H.

(** X11: when the export job is found, [export] returns the member of
    [Status] whose name the service reports for it and sends no create
    request. *)
Theorem export_reports_found_job self file w a1 r1 a2 r2 past_status r3 s :
  arn_from cli self (remote w) = (Ok (Some a1), r1) →
  a1 ≠ "" →
  arn_from cli self r1 = (Ok (Some a2), r2) →
  describe_forecast_export_job cli
    (str_replace ":forecast/" ":forecast-export-job/" a2
     +:+ "/" +:+ export_name self) r2
    = (Ok past_status, r3) →
  DescribeForecastExportJobResponse.Status past_status
    = Some (Status_name s) →
  export cli environ self file w
  = (Ok (ForecastExport.mk s),
     mkWorld r3
       (calls w ++
        [ListForecasts (history_filters self);
         ListForecasts (history_filters self);
         DescribeForecastExportJob
           (str_replace ":forecast/" ":forecast-export-job/" a2
            +:+ "/" +:+ export_name self)])
       (log w ++
        [(DEBUG, "Export status for " +:+ export_name self
                 +:+ " is Status." +:+ Status_name s)])).
Proof.
  intros H1 Hne H2 Hd Hs.
  unfold export, try_except, mbind, M_bind.
  next_arn H1. rewrite (not_str_Some _ Hne).
  next_arn H2. next_answer Hd.
  rewrite Hs, Status_getitem_name.
  unfold mret, M_ret. cbv beta iota.
  cbn [remote calls log ForecastExport.status].
  by rewrite <- !(assoc_L (++)).
Qed.

(** X12: when the export job is found with a status that names no member
    of [Status], the [KeyError] of the lookup comes out of [export]: the
    two [except] clauses do not catch it, and no create request is sent. *)
Theorem export_unmapped_status self file w a1 r1 a2 r2 past_status r3 name :
  arn_from cli self (remote w) = (Ok (Some a1), r1) →
  a1 ≠ "" →
  arn_from cli self r1 = (Ok (Some a2), r2) →
  describe_forecast_export_job cli
    (str_replace ":forecast/" ":forecast-export-job/" a2
     +:+ "/" +:+ export_name self) r2
    = (Ok past_status, r3) →
  DescribeForecastExportJobResponse.Status past_status = Some name →
  (∀ s, Status_name s ≠ name) →
  export cli environ self file w
  = (Raise (KeyError (Some name)),
     mkWorld r3
       (calls w ++
        [ListForecasts (history_filters self);
         ListForecasts (history_filters self);
         DescribeForecastExportJob
           (str_replace ":forecast/" ":forecast-export-job/" a2
            +:+ "/" +:+ export_name self)])
       (log w)).
Proof.
  intros H1 Hne H2 Hd Hs Hno.
  unfold export, try_except, mbind, M_bind.
  next_arn H1. rewrite (not_str_Some _ Hne).
  next_arn H2. next_answer Hd.
  rewrite Hs, Status_getitem_unmapped by done.
  cbv beta iota. cbn [is_client_error remote calls log].
  by rewrite <- !(assoc_L (++)).
Qed.

(** X13: an error answered to the describe request of [export] that is
    neither resource-in-use nor resource-not-found comes out of [export],
    and no create request is sent. *)
Theorem export_other_error self file w a1 r1 a2 r2 e r3 :
  arn_from cli self (remote w) = (Ok (Some a1), r1) →
  a1 ≠ "" →
  arn_from cli self r1 = (Ok (Some a2), r2) →
  describe_forecast_export_job cli
    (str_replace ":forecast/" ":forecast-export-job/" a2
     +:+ "/" +:+ export_name self) r2
    = (Raise e, r3) →
  (∀ message, e ≠ ClientError "ResourceInUseException" message) →
  (∀ message, e ≠ ClientError "ResourceNotFoundException" message) →
  export cli environ self file w
  = (Raise e,
     mkWorld r3
       (calls w ++
        [ListForecasts (history_filters self);
         ListForecasts (history_filters self);
         DescribeForecastExportJob
           (str_replace ":forecast/" ":forecast-export-job/" a2
            +:+ "/" +:+ export_name self)])
       (log w)).
Proof.
  intros H1 Hne H2 Hd Hiu Hnf.
  assert (is_client_error "ResourceInUseException" e = false) as Hiu'.
  { destruct e as [code message| | | |]; simpl; try done.
    apply bool_decide_eq_false. intros ->. by destruct (Hiu message). }
  assert (is_client_error "ResourceNotFoundException" e = false) as Hnf'.
  { destruct e as [code message| | | |]; simpl; try done.
    apply bool_decide_eq_false. intros ->. by destruct (Hnf message). }
  unfold export, try_except, mbind, M_bind.
  next_arn H1. rewrite (not_str_Some _ Hne).
  next_arn H2. next_answer Hd.
  rewrite Hiu', Hnf'. by rewrite <- !(assoc_L (++)).
Qed.

(** X15: [export] evaluates [self.arn] anew inside the [try]; when the
    forecast found by the first evaluation is gone at the second, the call
    of [replace] on [None] raises [AttributeError], which comes out of
    [export] before any describe or create request. *)
Theorem export_arn_vanished self file w a1 r1 r2 :
  arn_from cli self (remote w) = (Ok (Some a1), r1) →
  a1 ≠ "" →
  arn_from cli self r1 = (Ok None, r2) →
  export cli environ self file w
  = (Raise (AttributeError "'NoneType' object has no attribute 'replace'"),
     mkWorld r2
       (calls w ++
        [ListForecasts (history_filters self);
         ListForecasts (history_filters self)])
       (log w)).
Proof.
  intros H1 Hne H2.
  unfold export, try_except, mbind, M_bind.
  next_arn H1. rewrite (not_str_Some _ Hne).
  next_arn H2. unfold lift, export_job_arn.
  cbv beta iota. cbn [is_client_error].
  by rewrite <- !(assoc_L (++)).
Qed.

Lemma reads_then_create w (final : World R) reads :
  Forall (λ c, is_read_request c) reads →
  calls final = calls w ++ reads
  ∨ (∃ request,
       calls final = calls w ++ reads ++ [CreateForecastExportJob request]) →
  ∃ reads,
    Forall (λ c, is_read_request c) reads
    ∧ (calls final = calls w ++ reads
       ∨ ∃ request,
           calls final = calls w ++ reads ++ [CreateForecastExportJob request]).
Proof. intros Hreads Hcs. by exists reads. Qed.

(** The run ends after the read requests [reads]. *)
Ltac ends_after w reads :=
  apply (reads_then_create w _ reads); [by repeat constructor|];
  left; unfold mret, M_ret, logger; cbn [snd calls];
  by rewrite <- ?(assoc_L (++)).

(** The run ends with a create request after the read requests [reads]. *)
Ltac ends_with_create w reads :=
  apply (reads_then_create w _ reads); [by repeat constructor|];
  right; eexists; unfold mret, M_ret, logger; cbn [snd calls];
  rewrite <- ?(assoc_L (++)); reflexivity.

(** The [except] clauses of [export] on an exception [e] raised after the
    read requests [reads]; [reads'] is [reads] and one more listing. *)
Ltac except_clauses self w e reads reads' :=
  cbv beta iota;
  destruct (is_client_error "ResourceInUseException" e);
    [ends_after w reads|];
  destruct (is_client_error "ResourceNotFoundException" e);
    [|ends_after w reads];
  unfold logger; cbv beta iota; cbn [remote calls log];
  rewrite arn_run; cbn [remote calls log];
  match goal with
  | |- context [arn_from cli self ?r] =>
      destruct (arn_from cli self r) as [[?|?] ?]
  end;
  [ unfold invoke; cbn [remote calls log];
    destruct (create_forecast_export_job _ _ _) as [[[]|?] ?];
    ends_with_create w reads'
  | ends_after w reads' ].

(** X14: in every run of [export], whatever the service answers, at most
    one create request for an export job is sent, it is the last request
    of the run, and no forecast is created. *)
Theorem export_creates_at_most_once self file w :
  ∃ reads,
    Forall (λ c, is_read_request c) reads
    ∧ (calls (snd (export cli environ self file w)) = calls w ++ reads
       ∨ ∃ request,
           calls (snd (export cli environ self file w))
           = calls w ++ reads ++ [CreateForecastExportJob request]).
Proof.
  pose (listing := ListForecasts (history_filters self)).
  unfold export, try_except, mbind, M_bind.
  cbv beta iota. rewrite arn_run.
  destruct (arn_from cli self (remote w)) as [[a1|e1] r1];
    [|ends_after w [listing]].
  destruct (not_str a1); [ends_after w [listing]|].
  cbv beta iota. cbn [remote calls log]. rewrite arn_run.
  cbn [remote calls log].
  destruct (arn_from cli self r1) as [[a2|e2] r2];
    [|except_clauses self w e2 [listing; listing] [listing; listing; listing]].
  unfold lift, invoke, export_job_arn. destruct a2 as [a2|];
    [|cbv beta iota; cbn [is_client_error]; ends_after w [listing; listing]].
  cbv beta iota. cbn [remote calls log].
  pose (job := str_replace ":forecast/" ":forecast-export-job/" a2
               +:+ "/" +:+ export_name self).
  destruct (describe_forecast_export_job _ _ _) as [[past_status|e] r3].
  - destruct (Status_getitem _) as [export_status|e].
    + cbv beta iota.
      ends_after w [listing; listing; DescribeForecastExportJob job].
    + except_clauses self w e
        [listing; listing; DescribeForecastExportJob job]
        [listing; listing; DescribeForecastExportJob job; listing].
  - except_clauses self w e
      [listing; listing; DescribeForecastExportJob job]
      [listing; listing; DescribeForecastExportJob job; listing].
Qed.

End Forecast_export.

(** ** The ARN of the export job *)

Lemma prefix_cons a s1 b s2 :
  String.prefix (String a s1) (String b s2)
  = if Ascii.ascii_dec a b then String.prefix s1 s2 else false.
Proof. reflexivity. Qed.

Lemma append_cons c a rest : String c a +:+ rest = String c (a +:+ rest).
Proof. reflexivity. Qed.

(** [":forecast/"] does not occur at the start of a slash-free text that is
    followed by nothing or by a colon. *)
Lemma no_segment_at c a rest :
  has_slash (String c a) = false →
  rest = "" ∨ (∃ rest', rest = ":" +:+ rest') →
  String.prefix ":forecast/" (String c a +:+ rest) = false.
Proof.
  intros Hs Hrest.
  rewrite append_cons, prefix_cons.
  destruct (Ascii.ascii_dec _ c) as [<-|]; [|done].
  do 9 (destruct a as [|c' a]; [by destruct Hrest as [->|[rest' ->]]|];
        rewrite append_cons, prefix_cons;
        destruct (Ascii.ascii_dec _ c') as [<-|]; [|done]).
  exfalso. revert Hs. generalize (has_slash a). intros b. vm_compute.
  by destruct b.
Qed.

(** A slash-free text in front of nothing or of a colon is copied. *)
Lemma str_replace_slash_free new a rest :
  has_slash a = false →
  rest = "" ∨ (∃ rest', rest = ":" +:+ rest') →
  str_replace ":forecast/" new (a +:+ rest)
  = a +:+ str_replace ":forecast/" new rest.
Proof.
  intros Hs Hrest. unfold str_replace.
  induction a as [|c a IH]; [done|].
  assert (has_slash a = false) as Ha.
  { simpl in Hs. by apply orb_false_iff in Hs as [_ ?]. }
  pose proof (no_segment_at c a rest Hs Hrest) as Hno.
  rewrite append_cons in Hno |- *.
  cbn [str_replace_from]. rewrite Hno. by rewrite IH.
Qed.

Lemma append_nil_r a : a +:+ "" = a.
Proof. induction a as [|c a IH]; [done|]. by rewrite append_cons, IH. Qed.

Lemma append_assoc a b c : (a +:+ b) +:+ c = a +:+ b +:+ c.
Proof. induction a as [|x a IH]; [done|]. by rewrite !append_cons, IH. Qed.

Lemma prefix_append old rest : String.prefix old (old +:+ rest) = true.
Proof.
  induction old as [|c old IH]; [by destruct rest|].
  rewrite append_cons, prefix_cons. by destruct (Ascii.ascii_dec c c).
Qed.

Lemma str_replace_segment new rest :
  str_replace ":forecast/" new (":forecast/" +:+ rest)
  = new +:+ str_replace ":forecast/" new rest.
Proof.
  unfold str_replace. rewrite append_cons. cbn [str_replace_from].
  rewrite <- append_cons, prefix_append. reflexivity.
Qed.

(** X16: for a forecast ARN of the form [{head}:forecast/{name}] in which
    neither [head] nor [name] holds a slash, the export job that [export]
    describes is [{head}:forecast-export-job/{name}/{export_name}]: the
    resource-type segment is replaced once and the rest is kept. *)
Theorem export_job_arn_of_forecast_arn self head name :
  has_slash head = false →
  has_slash name = false →
  export_job_arn self (Some (head +:+ ":forecast/" +:+ name))
  = Ok (head +:+ ":forecast-export-job/" +:+ name +:+ "/export_"
        +:+ DatasetGroup.dataset_group_name (_dataset_group self)
        +:+ "_" +:+ DatasetGroup.latest_timestamp (_dataset_group self)).
Proof.
  intros Hhead Hname. unfold export_job_arn. f_equal.
  rewrite str_replace_slash_free by (done || right; by eexists).
  rewrite str_replace_segment.
  rewrite <- (append_nil_r name) at 1.
  rewrite str_replace_slash_free by (done || by left).
  change (str_replace ":forecast/" ":forecast-export-job/" "") with "".
  rewrite append_nil_r, !append_assoc. reflexivity.
Qed.

(** X16 at the ARN of the running example. *)
Lemma export_job_arn_of_forecast_arn_witness :
  export_job_arn (Fake.sales [])
    (Some "arn:aws:forecast:us-east-1:111111111111:forecast/forecast_sales_2021-05-01T00:00:00Z")
  = Ok "arn:aws:forecast:us-east-1:111111111111:forecast-export-job/forecast_sales_2021-05-01T00:00:00Z/export_sales_2021-05-01T00:00:00Z".
Proof.
  apply (export_job_arn_of_forecast_arn (Fake.sales [])
           "arn:aws:forecast:us-east-1:111111111111"
           "forecast_sales_2021-05-01T00:00:00Z"); reflexivity.
Defined.

(** ** [__init__] and [export_history] *)

(** X19: in the parameters that [__init__] hands to the validation, every
    pass-through option is present with its own value, also when it is
    named like a placeholder; the two required keys are always present,
    with the placeholder when no option gives them. *)
Theorem forecast_params_override self :
  (∀ k v, _forecast_config self !! k = Some v →
          _forecast_params self !! k = Some v)
  ∧ is_Some (_forecast_params self !! "ForecastName")
  ∧ is_Some (_forecast_params self !! "PredictorArn")
  ∧ (_forecast_config self !! "ForecastName" = None →
     _forecast_params self !! "ForecastName" = Some (VStr "PLACEHOLDER"))
  ∧ (_forecast_config self !! "PredictorArn" = None →
     _forecast_params self !! "PredictorArn"
     = Some (VStr "arn:aws:forecast:us-east-1:111111111111:predictor/PredictorName"))
  ∧ (∀ k, k ≠ "ForecastName" → k ≠ "PredictorArn" →
          _forecast_params self !! k = _forecast_config self !! k).
Proof.
  unfold _forecast_params.
  split; [|split; [|split; [|split; [|split]]]].
  - intros k v Hk. by apply lookup_union_Some_l.
  - destruct (_forecast_config self !! "ForecastName") as [v|] eqn:Hk.
    + exists v. by apply lookup_union_Some_l.
    + eexists. rewrite lookup_union_r by done. reflexivity.
  - destruct (_forecast_config self !! "PredictorArn") as [v|] eqn:Hk.
    + exists v. by apply lookup_union_Some_l.
    + eexists. rewrite lookup_union_r by done. reflexivity.
  - intros Hk. rewrite lookup_union_r by done. reflexivity.
  - intros Hk. rewrite lookup_union_r by done. reflexivity.
  - intros k Hn Hp. apply lookup_union_l.
    rewrite lookup_insert_ne by done. by apply lookup_singleton_ne.
Qed.

Lemma extend_jobs_from_listed past pages :
  foldl (λ past page,
           past ++ default [] (ListForecastExportJobsPage.ForecastExportJobs page))
    past pages
  = past ++ listed_jobs pages.
Proof.
  revert past. unfold listed_jobs.
  induction pages as [|page pages IH]; intros past; csimpl.
  - by rewrite app_nil_r.
  - rewrite IH. by rewrite (assoc_L (++)).
Qed.

Lemma sort_export_history_total l :
  Forall (λ j, is_Some (ExportJobSummary.CreationTime j)) l →
  sort_export_history l = Ok (sort_desc created l).
Proof.
  intros Hall. apply sorted_reverse_total.
  eapply Forall_impl; [exact Hall|].
  intros j [t Ht]. unfold created. by rewrite Ht.
Qed.

Lemma sort_export_history_missing l :
  Exists (λ j, ExportJobSummary.CreationTime j = None) l →
  sort_export_history l = Raise (KeyError (Some "CreationTime")).
Proof.
  intros Hex. apply sorted_reverse_raise.
  - eapply Exists_impl; [exact Hex|]. by intros j ->.
  - apply Forall_forall. intros j _ e.
    destruct (ExportJobSummary.CreationTime j); simpl; congruence.
Qed.

Lemma desc_created_not_before l :
  Forall (λ j, is_Some (ExportJobSummary.CreationTime j)) l →
  StronglySorted (desc created) l → StronglySorted created_not_before l.
Proof.
  intros Hall Hs. induction Hs as [|a l Hs IH Ha]; [constructor|].
  apply Forall_cons in Hall as [[ta Hta] Hall].
  constructor; [by apply IH|].
  apply Forall_forall. intros b Hb.
  rewrite Forall_forall in Ha, Hall.
  destruct (Hall b Hb) as [tb Htb]. specialize (Ha b Hb).
  unfold desc, created in Ha. rewrite Hta, Htb in Ha.
  by exists ta, tb.
Qed.

Section export_history_properties.
Context {R : Type} (cli : Client R).
Variable list_forecast_export_jobs :
  list Filter.t → R → Result (list ListForecastExportJobsPage.t) * R.
Variable str_exports : list ExportJobSummary.t → string.

Lemma in_session_arn self (s : Session R) :
  in_session (arn cli self) s =
  let '(a, r) := arn_from cli self (s_remote s) in
  (a, mkSession r
        (s_requests s ++ [ForecastRequest (ListForecasts (history_filters self))])
        (s_log s)).
Proof.
  unfold in_session. rewrite arn_run. cbn [remote calls log].
  destruct (arn_from _ _ _) as [a r]. cbn [remote calls log].
  by rewrite app_nil_r.
Qed.

(** X17: [export_history] resolves [arn], then sends one listing of export
    jobs filtered on that ARN (whatever it resolved to) and on the given
    status; it returns exactly the jobs of all pages in descending order of
    creation time and logs their number. *)
Theorem export_jobs_sorted_listing self status (s : Session R)
    forecast_arn r1 pages r2 :
  arn_from cli self (s_remote s) = (Ok forecast_arn, r1) →
  list_forecast_export_jobs
    [Filter.mk "ForecastArn" "IS" forecast_arn;
     Filter.mk "Status" "IS" (Some status)] r1
    = (Ok pages, r2) →
  Forall (λ j, is_Some (ExportJobSummary.CreationTime j)) (listed_jobs pages) →
  ∃ past_exports,
    export_history cli list_forecast_export_jobs str_exports self status s
    = (Ok past_exports,
       mkSession r2
         (s_requests s ++
          [ForecastRequest (ListForecasts (history_filters self));
           ListForecastExportJobs
             [Filter.mk "ForecastArn" "IS" forecast_arn;
              Filter.mk "Status" "IS" (Some status)]])
         (s_log s ++
          [(DEBUG,
            "there are {" +:+ pretty (length past_exports) +:+ "} exports: "
            +:+ str_exports past_exports)]))
    ∧ past_exports ≡ₚ listed_jobs pages
    ∧ StronglySorted created_not_before past_exports.
Proof.
  intros Harn Hlist Hall. exists (sort_desc created (listed_jobs pages)).
  split; [|split].
  - unfold export_history. rewrite in_session_arn, Harn.
    unfold export_history_filters. cbn [s_remote s_requests s_log].
    rewrite Hlist. simpl. unfold extend_export_pages.
    rewrite extend_jobs_from_listed, app_nil_l, sort_export_history_total by done.
    by rewrite <- (assoc_L (++)).
  - apply sort_desc_perm.
  - apply desc_created_not_before; [|apply sort_desc_sorted].
    by rewrite sort_desc_perm.
Qed.

(** X18: one listed export job without the key [CreationTime] makes
    [export_history] raise [KeyError] after both listings, and nothing is
    logged. *)
Theorem export_jobs_missing_sort_key self status (s : Session R)
    forecast_arn r1 pages r2 :
  arn_from cli self (s_remote s) = (Ok forecast_arn, r1) →
  list_forecast_export_jobs
    [Filter.mk "ForecastArn" "IS" forecast_arn;
     Filter.mk "Status" "IS" (Some status)] r1
    = (Ok pages, r2) →
  Exists (λ j, ExportJobSummary.CreationTime j = None) (listed_jobs pages) →
  export_history cli list_forecast_export_jobs str_exports self status s
  = (Raise (KeyError (Some "CreationTime")),
     mkSession r2
       (s_requests s ++
        [ForecastRequest (ListForecasts (history_filters self));
         ListForecastExportJobs
           [Filter.mk "ForecastArn" "IS" forecast_arn;
            Filter.mk "Status" "IS" (Some status)]])
       (s_log s)).
Proof.
  intros Harn Hlist Hex.
  unfold export_history. rewrite in_session_arn, Harn.
  unfold export_history_filters. cbn [s_remote s_requests s_log].
  rewrite Hlist. simpl. unfold extend_export_pages.
  rewrite extend_jobs_from_listed, app_nil_l, sort_export_history_missing by done.
  by rewrite <- (assoc_L (++)).
Qed.

End export_history_properties.

(** ** The further properties on the in-memory service *)

(** X1 at a service that throttles the listing. *)
Lemma listing_error_propagates_witness :
  fst (status (Variant.with_listing Variant.throttled) (Fake.sales [])
         (Fake.start Variant.active))
    = Raise (ClientError "ThrottlingException" "rate exceeded")
  ∧ fst (export (Variant.with_listing Variant.throttled) Fake.environ
           (Fake.sales []) Fake.file (Fake.start Variant.active))
    = Raise (ClientError "ThrottlingException" "rate exceeded").
Proof.
  destruct (listing_error_propagates (Variant.with_listing Variant.throttled)
              Fake.environ (Fake.sales []) Fake.file
              (Fake.start Variant.active)
              (ClientError "ThrottlingException" "rate exceeded")
              Variant.active eq_refl)
    as (w' & _ & _ & _ & Hstatus & Hexport).
  by rewrite Hstatus, Hexport.
Defined.

(** X2 at a listing in which the second forecast has no
    last-modification time. *)
Lemma history_missing_sort_key_witness :
  fst (history (Variant.with_listing (Ok Variant.pages_without_time))
         (Fake.sales []) (Fake.start Fake.empty))
    = Raise (KeyError (Some "LastModificationTime")).
Proof.
  apply (history_missing_sort_key
           (Variant.with_listing (Ok Variant.pages_without_time))
           (Fake.sales []) (Fake.start Fake.empty)
           Variant.pages_without_time Fake.empty eq_refl).
  right. by left.
Defined.

(** X3 at a listing over two pages in which [b] and [c] tie. *)
Lemma history_keeps_order_of_ties_witness :
  ∃ past,
    fst (history (Variant.with_listing (Ok Variant.pages_with_tie))
           (Fake.sales []) (Fake.start Fake.empty)) = Ok past
    ∧ ForecastSummary.ForecastName
        <$> filter (λ f, ForecastSummary.LastModificationTime f = Some 30) past
      = [Some "b"; Some "c"].
Proof.
  eexists. split; [reflexivity|].
  erewrite (history_keeps_order_of_ties
              (Variant.with_listing (Ok Variant.pages_with_tie))
              (Fake.sales []) (Fake.start Fake.empty)
              Variant.pages_with_tie Fake.empty);
    reflexivity.
Defined.

(** X4 at the same listing: [arn] is that of [b]. *)
Lemma arn_of_most_recent_witness :
  fst (arn (Variant.with_listing (Ok Variant.pages_with_tie))
         (Fake.sales []) (Fake.start Fake.empty))
  = Ok (Some "arn:b").
Proof.
  destruct (arn_of_most_recent
              (Variant.with_listing (Ok Variant.pages_with_tie))
              (Fake.sales []) (Fake.start Fake.empty)
              Variant.pages_with_tie Fake.empty
              (ForecastSummary.mk (Some "arn:a") (Some "a") (Some 10)))
    as (latest & _ & _ & Harn).
  - reflexivity.
  - repeat constructor; by eexists.
  - left.
  - reflexivity.
Defined.

(** X5 at an active forecast of the current predictor, newer than the
    one dataset. *)
Lemma status_reports_remote_status_witness :
  fst (status Fake.client (Fake.sales [Dataset.mk (Some 5)])
         (Fake.start Variant.active))
  = Ok ACTIVE.
Proof.
  erewrite (status_reports_remote_status Fake.client
              (Fake.sales [Dataset.mk (Some 5)]) (Fake.start Variant.active)
              _ _ _ _ _ ACTIVE).
  - reflexivity.
  - reflexivity.
  - reflexivity.
  - reflexivity.
  - repeat constructor. exists 5, 10.
    split; [reflexivity|]. split; [reflexivity | lia].
  - reflexivity.
Defined.

(** X6 at a service that throttles the describe request. *)
Lemma status_describe_error_witness :
  fst (status (Variant.with_description Variant.throttled) (Fake.sales [])
         (Fake.start Variant.active))
  = Raise (ClientError "ThrottlingException" "rate exceeded").
Proof.
  erewrite (status_describe_error (Variant.with_description Variant.throttled));
    reflexivity.
Defined.

(** X7 at a dataset group whose second dataset has no last-modification
    time. *)
Lemma status_missing_time_witness :
  fst (status Fake.client
         (Fake.sales [Dataset.mk (Some 5); Dataset.mk None])
         (Fake.start Variant.active))
  = Raise (TypeError
             "'>' not supported between instances of 'NoneType' and 'datetime.datetime'").
Proof.
  eapply (status_missing_time Fake.client _ _ _ _ _
            (Fake.description
               (Fake.made_with
                  "arn:aws:forecast:us-east-1:111111111111:predictor/B"
                  "ACTIVE"))
            _ [Dataset.mk (Some 5)] (Dataset.mk None) []).
  - reflexivity.
  - reflexivity.
  - reflexivity.
  - reflexivity.
  - repeat constructor. exists 5, 10.
    split; [reflexivity|]. split; [reflexivity | lia].
  - by left.
Defined.

(** X9 at pass-through options that name the forecast. *)
Lemma create_repeated_keyword_witness :
  ∃ message,
    create Fake.client Variant.sales_named (Fake.start Fake.empty)
    = (Raise (TypeError message),
       mkWorld Fake.empty []
         [(INFO, "Creating forecast forecast_sales_2021-05-01T00:00:00Z")]).
Proof.
  apply (create_repeated_keyword Fake.client Variant.sales_named
           (Fake.start Fake.empty) "ForecastName").
  - left.
  - by eexists.
Defined.

(** X10 at a forecast with one pass-through option. *)
Lemma create_sends_one_request_witness :
  calls (snd (create Fake.client Fake.sales_retrained (Fake.start Fake.empty)))
  = [CreateForecast
       (CreateForecastRequest.mk "forecast_sales_2021-05-01T00:00:00Z"
          (Some "arn:aws:forecast:us-east-1:111111111111:predictor/C")
          [("SolutionId", "SOL0123")]
          {[ "ForecastTypes" := VList ["0.10"; "0.50"; "0.90"] ]})].
Proof.
  apply (create_sends_one_request Fake.client Fake.sales_retrained
           (Fake.start Fake.empty)).
  repeat constructor.
Defined.

(** X11 at an export job that the service reports in progress. *)
Lemma export_reports_found_job_witness :
  fst (export
         (Variant.with_export_job
            (Ok (DescribeForecastExportJobResponse.mk
                   (Some "CREATE_IN_PROGRESS"))))
         Fake.environ (Fake.sales []) Fake.file (Fake.start Variant.active))
  = Ok (ForecastExport.mk CREATE_IN_PROGRESS).
Proof.
  erewrite (export_reports_found_job
              (Variant.with_export_job
                 (Ok (DescribeForecastExportJobResponse.mk
                        (Some "CREATE_IN_PROGRESS"))))
              Fake.environ (Fake.sales []) Fake.file
              (Fake.start Variant.active) _ _ _ _ _ _ CREATE_IN_PROGRESS).
  - reflexivity.
  - reflexivity.
  - discriminate.
  - reflexivity.
  - reflexivity.
  - reflexivity.
Defined.

(** X12 at an export job whose reported status is not a member. *)
Lemma export_unmapped_status_witness :
  fst (export
         (Variant.with_export_job
            (Ok (DescribeForecastExportJobResponse.mk (Some "BOGUS"))))
         Fake.environ (Fake.sales []) Fake.file (Fake.start Variant.active))
  = Raise (KeyError (Some "BOGUS")).
Proof.
  erewrite (export_unmapped_status
              (Variant.with_export_job
                 (Ok (DescribeForecastExportJobResponse.mk (Some "BOGUS"))))
              Fake.environ (Fake.sales []) Fake.file
              (Fake.start Variant.active)).
  - reflexivity.
  - reflexivity.
  - discriminate.
  - reflexivity.
  - reflexivity.
  - reflexivity.
  - intros []; vm_compute; discriminate.
Defined.

(** X13 at a service that throttles the describe request of the export. *)
Lemma export_other_error_witness :
  fst (export (Variant.with_export_job Variant.throttled)
         Fake.environ (Fake.sales []) Fake.file (Fake.start Variant.active))
  = Raise (ClientError "ThrottlingException" "rate exceeded").
Proof.
  erewrite (export_other_error (Variant.with_export_job Variant.throttled)
              Fake.environ (Fake.sales []) Fake.file
              (Fake.start Variant.active)).
  - reflexivity.
  - reflexivity.
  - discriminate.
  - reflexivity.
  - reflexivity.
  - discriminate.
  - discriminate.
Defined.

(** X15 at a service whose forecast is deleted after the first listing. *)
Lemma export_arn_vanished_witness :
  fst (export Variant.vanishing Fake.environ (Fake.sales []) Fake.file
         (Fake.start Variant.active))
  = Raise (AttributeError "'NoneType' object has no attribute 'replace'").
Proof.
  erewrite (export_arn_vanished Variant.vanishing Fake.environ (Fake.sales [])
              Fake.file (Fake.start Variant.active)).
  - reflexivity.
  - reflexivity.
  - discriminate.
  - reflexivity.
Defined.

(** X17 at a forecast with two export jobs, listed oldest first. *)
Lemma export_jobs_sorted_listing_witness :
  ∃ past_exports s',
    export_history Fake.client FakeExports.list_forecast_export_jobs
      FakeExports.str_exports (Fake.sales []) "ACTIVE"
      (FakeExports.start Variant.active)
    = (Ok past_exports, s')
    ∧ ExportJobSummary.CreationTime <$> past_exports = [Some 7; Some 5]
    ∧ s_log s' = [(DEBUG, "there are {2} exports: [2 job summaries]")].
Proof.
  destruct (export_jobs_sorted_listing Fake.client
              FakeExports.list_forecast_export_jobs FakeExports.str_exports
              (Fake.sales []) "ACTIVE" (FakeExports.start Variant.active)
              (Some "arn:aws:forecast:us-east-1:111111111111:forecast/forecast_sales_2021-05-01T00:00:00Z")
              Variant.active
              [ListForecastExportJobsPage.mk (Some FakeExports.jobs)]
              Variant.active)
    as (past_exports & Hrun & _ & _).
  - reflexivity.
  - reflexivity.
  - repeat constructor; by eexists.
  - exists past_exports. eexists. split; [exact Hrun|].
    vm_compute in Hrun. injection Hrun as <-. split; reflexivity.
Defined.

(** X18 at a listing with an export job that has no creation time. *)
Lemma export_jobs_missing_sort_key_witness :
  fst (export_history Fake.client FakeExports.list_malformed
         FakeExports.str_exports (Fake.sales []) "ACTIVE"
         (FakeExports.start Variant.active))
  = Raise (KeyError (Some "CreationTime")).
Proof.
  erewrite (export_jobs_missing_sort_key Fake.client
              FakeExports.list_malformed FakeExports.str_exports
              (Fake.sales []) "ACTIVE" (FakeExports.start Variant.active)).
  - reflexivity.
  - reflexivity.
  - reflexivity.
  - right. right. by left.
Defined.
